(** * The tactical motif tagger of lichess-puzzler ([tagger/cook.py])

    A shallow embedding of the classifier driver [cook] and of its detector
    catalog, together with the properties of the tag list it returns.

    Python exceptions are kept: every function that can raise returns a
    [result].  The chess rules engine (python-chess) and the helper module
    [util] are consumed through two interfaces, [Engine] and [Util]; the
    theorems hold for every implementation of them, and a reference
    implementation for standard chess is used to run the detectors on
    concrete games. *)

From Stdlib Require Import Ascii String ZArith Bool List Sorted Lia.
Import ListNotations.
Open Scope string_scope.
Open Scope list_scope.
Open Scope Z_scope.

Set Implicit Arguments.

(** ** Exceptions *)

Inductive exn : Type :=
| IndexError
| AttributeError
| KeyError
| TypeError.

Inductive result (A : Type) : Type :=
| Ok (a : A)
| Raise (e : exn).

Arguments Ok {A} a.
Arguments Raise {A} e.

Definition bind {A B : Type} (c : result A) (k : A -> result B) : result B :=
  match c with
  | Ok a => k a
  | Raise e => Raise e
  end.

Notation "x <- c ;; k" := (bind c (fun x => k))
  (at level 61, c at next level, right associativity).

(** [x.attr] where [x] may be [None]. *)
Definition attr {A : Type} (o : option A) : result A :=
  match o with
  | Some a => Ok a
  | None => Raise AttributeError
  end.

(** ** Python lists *)

Module Py.

(** [l[i]] for [i >= 0]. *)
Definition index {A : Type} (l : list A) (i : nat) : result A :=
  match nth_error l i with
  | Some a => Ok a
  | None => Raise IndexError
  end.

(** [l[-k]] for [k >= 1]. *)
Definition index_neg {A : Type} (l : list A) (k : nat) : result A :=
  if (k <=? length l)%nat then index l (length l - k) else Raise IndexError.

(** [l[1::2]] *)
Fixpoint odd_items {A : Type} (l : list A) : list A :=
  match l with
  | _ :: x :: l' => x :: odd_items l'
  | _ => []
  end.

(** [l[1:]] is [tl l] and [l[:-1]] is [removelast l]. *)
Definition drop_first {A : Type} (l : list A) : list A := tl l.
Definition drop_last {A : Type} (l : list A) : list A := removelast l.

(** A [for] loop whose body may [return]: the body answers [Some v] to
    return [v] from the enclosing function and [None] to go on with the next
    item; the loop answers [None] when it runs to its end. *)
Fixpoint for_in {A R : Type} (l : list A) (body : A -> result (option R))
  : result (option R) :=
  match l with
  | [] => Ok None
  | x :: l' =>
      r <- body x ;;
      match r with
      | Some v => Ok (Some v)
      | None => for_in l' body
      end
  end.

Definition continue {R : Type} : result (option R) := Ok None.
Definition return_ {R : Type} (v : R) : result (option R) := Ok (Some v).

(** What the function returns once the loop is over: the loop's [return]
    value, or the value of the statement after the loop. *)
Definition or_return {R : Type} (after : R) (r : option R) : R :=
  match r with
  | Some v => v
  | None => after
  end.

(** Truth value of an [Optional[bool]]. *)
Definition truthy (o : option bool) : bool :=
  match o with
  | Some b => b
  | None => false
  end.

End Py.

(** ** Squares, square sets, pieces and moves (python-chess) *)

Definition Square := Z.

Definition square_file (s : Square) : Z := Z.land s 7.
Definition square_rank (s : Square) : Z := Z.shiftr s 3.

Definition E1 : Square := 4.
Definition F2 : Square := 13.
Definition F7 : Square := 53.
Definition E8 : Square := 60.

(** A [SquareSet] is a 64-bit mask, bit [s] standing for square [s]. *)
Definition SquareSet := Z.

Definition BB_ALL : SquareSet := 18446744073709551615.

Definition all_squares : list Square := map Z.of_nat (seq 0 64).

Module SS.

Definition mem (s : Square) (m : SquareSet) : bool := Z.testbit m s.

Definition from_square (s : Square) : SquareSet := Z.shiftl 1 s.

Definition add (m : SquareSet) (s : Square) : SquareSet :=
  Z.lor m (Z.shiftl 1 s).

(** Iteration goes from the lowest square up. *)
Definition elements (m : SquareSet) : list Square :=
  filter (fun s => mem s m) all_squares.

Definition len (m : SquareSet) : Z := Z.of_nat (length (elements m)).

Definition nonempty (m : SquareSet) : bool := negb (m =? 0).

Definition of_list (l : list Square) : SquareSet :=
  fold_left add l 0.

(** [m.pop() if m else None]: the lowest square of the set. *)
Definition pop_or_none (m : SquareSet) : option Square :=
  if nonempty m then hd_error (elements m) else None.

End SS.

Inductive PieceType : Type :=
| PAWN | KNIGHT | BISHOP | ROOK | QUEEN | KING.

(** Piece types are the integers 1 to 6. *)
Definition piece_type_int (pt : PieceType) : Z :=
  match pt with
  | PAWN => 1 | KNIGHT => 2 | BISHOP => 3 | ROOK => 4 | QUEEN => 5 | KING => 6
  end.

Definition pt_eqb (a b : PieceType) : bool :=
  piece_type_int a =? piece_type_int b.

(** [WHITE = True], [BLACK = False]. *)
Definition Color := bool.
Definition WHITE : Color := true.
Definition BLACK : Color := false.

Record Piece : Type := mkPiece { piece_type : PieceType; color : Color }.

Definition piece_eqb (a b : Piece) : bool :=
  pt_eqb (piece_type a) (piece_type b) && Bool.eqb (color a) (color b).

(** [o == piece] where [o] is an [Optional[Piece]]. *)
Definition opt_piece_is (o : option Piece) (q : Piece) : bool :=
  match o with
  | Some x => piece_eqb x q
  | None => false
  end.

Record Move : Type := mkMove {
  from_square : Square;
  to_square : Square;
  promotion_piece : option PieceType
}.

Definition is_some {A : Type} (o : option A) : bool :=
  match o with
  | Some _ => true
  | None => false
  end.

(** ** The piece value table

    Modelled from the spec: [util.values] is a table of the module [util],
    which is not among the sources.  Section 4.3 gives pawn=1, knight=3,
    bishop=3, rook=5, queen=9 and no entry for the king, so that
    [util.values[KING]] is a [KeyError]. *)
Definition values (pt : PieceType) : result Z :=
  match pt with
  | PAWN => Ok 1
  | KNIGHT => Ok 3
  | BISHOP => Ok 3
  | ROOK => Ok 5
  | QUEEN => Ok 9
  | KING => Raise KeyError
  end.

(** Modelled from the spec: [util.ray_piece_types], section 4.3:
    bishop, rook and queen. *)
Definition ray_piece_types : list PieceType := [QUEEN; ROOK; BISHOP].

Definition pt_in (pt : PieceType) (l : list PieceType) : bool :=
  existsb (pt_eqb pt) l.

(** ** The board query facade *)

Class Engine : Type := {
  Board : Type;
  turn : Board -> Color;
  piece_at : Board -> Square -> option Piece;
  (** [board.piece_map().items()] *)
  piece_map : Board -> list (Square * Piece);
  attackers : Board -> Color -> Square -> SquareSet;
  attacks : Board -> Square -> SquareSet;
  checkers : Board -> SquareSet;
  is_check : Board -> bool;
  is_checkmate : Board -> bool;
  (** [board.pin(color, square)] *)
  board_pin : Board -> Color -> Square -> SquareSet;
  king : Board -> Color -> option Square;
  mirror : Board -> Board;
  (** [board.legal_moves.count()] *)
  legal_moves_count : Board -> Z;
  (** [SquareSet.between(a, b)] *)
  between : Square -> Square -> SquareSet
}.

(** ** Games and their nodes

    A game here is one line of play: the position of the root and, for each
    move played, the move and the position it leads to.  A node is a cursor
    into the line; node [0] is the root (it has no move and no parent), node
    [i + 1] is the [i]-th move. *)

Section Nodes.

Context {E : Engine}.

Record Game : Type := mkGame {
  root : Board;
  plies : list (Move * Board)
}.

Record GameNode : Type := mkNode {
  node_game : Game;
  node_ply : nat
}.

(** [node.move] *)
Definition node_move (n : GameNode) : option Move :=
  match node_ply n with
  | O => None
  | S i => option_map fst (nth_error (plies (node_game n)) i)
  end.

(** [node.board()] *)
Definition node_board (n : GameNode) : Board :=
  match node_ply n with
  | O => root (node_game n)
  | S i =>
      match nth_error (plies (node_game n)) i with
      | Some (_, b) => b
      | None => root (node_game n)
      end
  end.

(** [node.parent] *)
Definition node_parent (n : GameNode) : option GameNode :=
  match node_ply n with
  | O => None
  | S i => Some (mkNode (node_game n) i)
  end.

(** [node.turn()] *)
Definition node_turn (n : GameNode) : Color := turn (node_board n).

(** [node.is_end()]: the node has no variation. *)
Definition node_is_end (n : GameNode) : bool :=
  (length (plies (node_game n)) <=? node_ply n)%nat.

(** [game.mainline()]: the nodes of the moves, in order. *)
Definition game_mainline (g : Game) : list GameNode :=
  map (mkNode g) (seq 1 (length (plies g))).

(** [game.end()]: the last node of the line. *)
Definition game_end (g : Game) : GameNode := mkNode g (length (plies g)).

(** [node.move.x]: the move of a node, [AttributeError] on the root. *)
Definition move_of (n : GameNode) : result Move := attr (node_move n).

(** [node.parent.x]: the parent of a node, [AttributeError] on the root's. *)
Definition parent_of (n : GameNode) : result GameNode := attr (node_parent n).

(** ** Puzzles

    Modelled from the spec: the class [Puzzle] is declared in the module
    [model], which is not among the sources.  Section 3: a puzzle has an
    identifier, a game, a point of view and the mainline of the game. *)
Record Puzzle : Type := mkPuzzle {
  id : string;
  game : Game;
  pov : Color
}.

Definition mainline (p : Puzzle) : list GameNode := game_mainline (game p).

End Nodes.

(** ** The helper module [util]

    The module is not among the sources; [cook.py] uses the functions below,
    with these signatures. *)
Class Util {E : Engine} : Type := {
  material_diff : Board -> Color -> Z;
  moved_piece_type : GameNode -> PieceType;
  is_advanced_pawn_move : GameNode -> bool;
  is_capture : GameNode -> bool;
  attacked_opponent_squares : Board -> Square -> Color -> list (Piece * Square);
  attacked_opponent_pieces : Board -> Square -> Color -> list Piece;
  is_hanging : Board -> Piece -> Square -> bool;
  is_trapped : Board -> Square -> bool;
  is_in_bad_spot : Board -> Square -> bool;
  next_node : GameNode -> option GameNode;
  next_next_node : GameNode -> option GameNode
}.

(** ** The detectors of [cook.py] *)

Import Py.

Definition TagKind := string.

Section Detectors.

Context {E : Engine} {U : Util}.

Definition advanced_pawn (puzzle : Puzzle) : result bool :=
  r <- for_in (mainline puzzle) (fun node =>
         if is_advanced_pawn_move node then return_ true else continue) ;;
  Ok (or_return false r).

Definition double_check (puzzle : Puzzle) : result bool :=
  r <- for_in (odd_items (mainline puzzle)) (fun node =>
         if 1 <? SS.len (checkers (node_board node))
         then return_ true else continue) ;;
  Ok (or_return false r).

Definition sacrifice (puzzle : Puzzle) : result bool :=
  let diffs :=
    map (fun n => material_diff (node_board n) (pov puzzle)) (mainline puzzle) in
  initial <- index diffs 0 ;;
  r <- for_in (drop_first (odd_items diffs)) (fun d =>
         if d - initial <=? -2 then return_ true else continue) ;;
  Ok (or_return false r).

(** The inner loop of [fork]: counts the attacked pieces that qualify. *)
Fixpoint fork_count (node : GameNode) (board : Board)
    (attacked : list (Piece * Square)) (nb : Z) : result Z :=
  match attacked with
  | [] => Ok nb
  | (piece, square) :: rest =>
      if pt_eqb (piece_type piece) PAWN then fork_count node board rest nb
      else
        qualifies <-
          (if pt_eqb (piece_type piece) KING then Ok true
           else
             v <- values (piece_type piece) ;;
             w <- values (moved_piece_type node) ;;
             if w <? v then Ok true
             else Ok (is_hanging board piece square)) ;;
        fork_count node board rest (if qualifies : bool then nb + 1 else nb)
  end.

Definition fork (puzzle : Puzzle) : result bool :=
  r <- for_in (drop_last (odd_items (mainline puzzle))) (fun node =>
         if negb (pt_eqb (moved_piece_type node) KING) then
           let board := node_board node in
           if is_checkmate board then return_ false
           else
             m <- move_of node ;;
             nb <- fork_count node board
                     (attacked_opponent_squares board (to_square m) (pov puzzle))
                     0 ;;
             if 1 <? nb then return_ true else continue
         else continue) ;;
  Ok (or_return false r).

Definition hanging_piece (puzzle : Puzzle) : result bool :=
  m0 <- index (mainline puzzle) 0 ;;
  if is_capture m0 then Ok false
  else
    m0' <- index (mainline puzzle) 0 ;;
    if is_check (node_board m0') then Ok false
    else
      m1 <- index (mainline puzzle) 1 ;;
      mv <- move_of m1 ;;
      let to := to_square mv in
      m0 <- index (mainline puzzle) 0 ;;
      let captured := piece_at (node_board m0) to in
      match captured with
      | Some c =>
          if negb (pt_eqb (piece_type c) PAWN) then
            m0 <- index (mainline puzzle) 0 ;;
            if is_hanging (node_board m0) c to then
              if (length (mainline puzzle) <? 3)%nat then Ok true
              else
                m3 <- index (mainline puzzle) 3 ;;
                m1 <- index (mainline puzzle) 1 ;;
                if material_diff (node_board m3) (pov puzzle)
                     >=? material_diff (node_board m1) (pov puzzle)
                then Ok true
                else Ok false
            else Ok false
          else Ok false
      | None => Ok false
      end.

Definition trapped_piece (puzzle : Puzzle) : result bool :=
  r <- for_in (drop_first (odd_items (mainline puzzle))) (fun node =>
         m <- move_of node ;;
         let square := to_square m in
         par <- parent_of node ;;
         let captured := piece_at (node_board par) square in
         match captured with
         | Some c =>
             if negb (pt_eqb (piece_type c) PAWN) then
               prev <- parent_of node ;;
               pm <- move_of prev ;;
               let square :=
                 if to_square pm =? square then from_square pm else square in
               pp <- parent_of prev ;;
               if is_trapped (node_board pp) square then return_ true
               else continue
             else continue
         | None => continue
         end) ;;
  Ok (or_return false r).

Definition discovered_check (puzzle : Puzzle) : result bool :=
  r <- for_in (odd_items (mainline puzzle)) (fun node =>
         let board := node_board node in
         let chk := checkers board in
         if SS.nonempty chk then
           m <- move_of node ;;
           if negb (SS.mem (to_square m) chk) then return_ true else continue
         else continue) ;;
  Ok (or_return false r).

Definition discovered_attack (puzzle : Puzzle) : result bool :=
  dc <- discovered_check puzzle ;;
  if dc then Ok true
  else
    r <- for_in (drop_first (odd_items (mainline puzzle))) (fun node =>
           if is_capture node then
             m <- move_of node ;;
             let btw := between (from_square m) (to_square m) in
             par <- parent_of node ;;
             pm <- move_of par ;;
             if to_square pm =? to_square m then return_ false
             else
               prev <- parent_of par ;;
               prm <- move_of prev ;;
               if SS.mem (from_square prm) btw
                  && negb (to_square m =? to_square prm)
               then return_ true
               else continue
           else continue) ;;
    Ok (or_return false r).

Definition quiet_move (puzzle : Puzzle) : result bool :=
  r <- for_in (mainline puzzle) (fun node =>
         (* on player move, not the last move of the puzzle *)
         if negb (Bool.eqb (node_turn node) (pov puzzle))
            && negb (node_is_end node) then
           (* no check given or escaped *)
           if negb (SS.nonempty (checkers (node_board node))) then
             par <- parent_of node ;;
             if negb (SS.nonempty (checkers (node_board par))) then
               (* no capture made or threatened *)
               if negb (is_capture node) then
                 m <- move_of node ;;
                 match attacked_opponent_pieces (node_board node)
                         (to_square m) (pov puzzle) with
                 | [] => return_ true
                 | _ :: _ => return_ false
                 end
               else continue
             else continue
           else continue
         else continue) ;;
  Ok (or_return false r).

Definition defensive_move (puzzle : Puzzle) : result bool :=
  (* like quiet_move, but on last move; at least 3 legal moves *)
  before <- index_neg (mainline puzzle) 2 ;;
  if legal_moves_count (node_board before) <? 3 then Ok false
  else
    node <- index_neg (mainline puzzle) 1 ;;
    (* no check given, no piece taken *)
    if SS.nonempty (checkers (node_board node)) || is_capture node
    then Ok false
    else
      m <- move_of node ;;
      (* no piece attacked *)
      match attacked_opponent_pieces (node_board node)
              (to_square m) (pov puzzle) with
      | _ :: _ => Ok false
      | [] =>
          (* no advanced pawn push *)
          Ok (negb (is_advanced_pawn_move node))
      end.

Definition attraction (puzzle : Puzzle) : result bool :=
  r <- for_in (drop_first (mainline puzzle)) (fun node =>
         if Bool.eqb (node_turn node) (pov puzzle) then continue
         else
           (* 1. player moves to a square *)
           m <- move_of node ;;
           let first_move_to := to_square m in
           (* 2. opponent captures on that square *)
           match next_node node with
           | None => continue
           | Some opponent_reply =>
               rm <- move_of opponent_reply ;;
               if to_square rm =? first_move_to then
                 let attracted_piece := moved_piece_type opponent_reply in
                 if pt_in attracted_piece [KING; QUEEN; ROOK] then
                   let attracted_to_square := to_square rm in
                   match next_node opponent_reply with
                   | None => continue
                   | Some nxt =>
                       let atk :=
                         attackers (node_board nxt) (pov puzzle)
                           attracted_to_square in
                       (* 3. player attacks that square *)
                       nm <- move_of nxt ;;
                       if SS.mem (to_square nm) atk then
                         (* 4. player checks on that square *)
                         if pt_eqb attracted_piece KING then return_ true
                         else
                           (* 4. or player later captures on that square *)
                           match next_next_node nxt with
                           | None => continue
                           | Some n3 =>
                               m3 <- move_of n3 ;;
                               if to_square m3 =? attracted_to_square
                               then return_ true
                               else continue
                           end
                       else continue
                   end
                 else continue
               else continue
           end) ;;
  Ok (or_return false r).

Definition deflection (puzzle : Puzzle) : result bool :=
  r <- for_in (drop_first (odd_items (mainline puzzle))) (fun node =>
         par <- parent_of node ;;
         m <- move_of node ;;
         let capture := piece_at (node_board par) (to_square m) in
         if is_some capture || is_some (promotion_piece m) then
           let piece := moved_piece_type node in
           skip <-
             match capture with
             | Some c =>
                 if negb (pt_eqb piece KING) then
                   v <- values (piece_type c) ;;
                   w <- values piece ;;
                   Ok (w <? v)
                 else Ok false
             | None => Ok false
             end ;;
           if skip : bool then continue
           else
             let square := to_square m in
             let prev_op_move := node_move par in
             pp <- parent_of par ;;
             let prev_player_move := node_move pp in
             ppp <- parent_of pp ;;
             prev_player_move <- attr prev_player_move ;;
             let prev_player_capture :=
               piece_at (node_board ppp) (to_square prev_player_move) in
             c1 <-
               match prev_player_capture with
               | None => Ok true
               | Some c =>
                   v <- values (piece_type c) ;;
                   Ok (v <? piece_type_int (moved_piece_type pp))
               end ;;
             if c1 : bool then
               prev_op_move <- attr prev_op_move ;;
               if (negb (square =? to_square prev_op_move)
                   && negb (square =? to_square prev_player_move))
                  && (to_square prev_op_move =? to_square prev_player_move)
                  && SS.mem square
                       (attacks (node_board pp) (from_square prev_op_move))
                  && negb (SS.mem square
                             (attacks (node_board par) (to_square prev_op_move)))
               then return_ true
               else continue
             else continue
         else continue) ;;
  Ok (or_return false r).

Definition exposed_king (puzzle : Puzzle) : result bool :=
  m0 <- index (mainline puzzle) 0 ;;
  let '(pov', board) :=
    if pov puzzle then (pov puzzle, node_board m0)
    else (negb (pov puzzle), mirror (node_board m0)) in
  match king board (negb pov') with
  | None => Raise TypeError
  | Some king =>
      if square_rank king <? 5 then Ok false
      else
        let squares := SS.from_square (king - 8) in
        let squares :=
          if 0 <? square_file king
          then SS.add (SS.add squares (king - 1)) (king - 9)
          else squares in
        let squares :=
          if square_file king <? 7
          then SS.add (SS.add squares (king + 1)) (king - 7)
          else squares in
        r <- for_in (SS.elements squares) (fun square =>
               if opt_piece_is (piece_at board square) (mkPiece PAWN (negb pov'))
               then return_ false
               else continue) ;;
        match r with
        | Some v => Ok v
        | None =>
            r <- for_in (drop_last (drop_first (odd_items (mainline puzzle))))
                   (fun node =>
                      if is_check (node_board node) then return_ true
                      else continue) ;;
            Ok (or_return false r)
        end
  end.

(** The local function [value] of [skewer]. *)
Definition skewer_value (pt : PieceType) : result Z :=
  if pt_eqb pt KING then Ok 10 else values pt.

Definition skewer (puzzle : Puzzle) : result bool :=
  r <- for_in (drop_first (odd_items (mainline puzzle))) (fun node =>
         prev <- parent_of node ;;
         m <- move_of node ;;
         let capture := piece_at (node_board prev) (to_square m) in
         match capture with
         | Some c =>
             if pt_in (moved_piece_type node) ray_piece_types
                && negb (is_checkmate (node_board node)) then
               let btw := between (from_square m) (to_square m) in
               op_move <- move_of prev ;;
               if (to_square op_move =? to_square m)
                  || negb (SS.mem (from_square op_move) btw)
               then continue
               else
                 v <- skewer_value (moved_piece_type prev) ;;
                 w <- skewer_value (piece_type c) ;;
                 if w <? v then return_ true else continue
             else continue
         | None => continue
         end) ;;
  Ok (or_return false r).

(** [if defender and ...]: a square is an integer, and [0] (a1) is falsy. *)
Definition truthy_square (o : option Square) : option Square :=
  match o with
  | Some s => if s =? 0 then None else Some s
  | None => None
  end.

Definition self_interference (puzzle : Puzzle) : result bool :=
  (* interference by opponent piece *)
  r <- for_in (drop_first (odd_items (mainline puzzle))) (fun node =>
         par <- parent_of node ;;
         let prev_board := node_board par in
         m <- move_of node ;;
         let square := to_square m in
         match piece_at prev_board square with
         | Some capture =>
             if is_hanging prev_board capture square then
               pp <- parent_of par ;;
               let init_board := node_board pp in
               let defenders := attackers init_board (color capture) square in
               match truthy_square (SS.pop_or_none defenders) with
               | Some defender =>
                   dp <- attr (piece_at init_board defender) ;;
                   if pt_in (piece_type dp) ray_piece_types then
                     pm <- move_of par ;;
                     if SS.mem (to_square pm) (between square defender)
                     then return_ true
                     else continue
                   else continue
               | None => continue
               end
             else continue
         | None => continue
         end) ;;
  Ok (or_return false r).

Definition interference (puzzle : Puzzle) : result bool :=
  (* interference by player piece *)
  r <- for_in (drop_first (odd_items (mainline puzzle))) (fun node =>
         par <- parent_of node ;;
         let prev_board := node_board par in
         m <- move_of node ;;
         let square := to_square m in
         match piece_at prev_board square with
         | Some capture =>
             pm <- move_of par ;;
             if negb (square =? to_square pm)
                && is_hanging prev_board capture square then
               pp <- parent_of par ;;
               ppp <- parent_of pp ;;
               let init_board := node_board ppp in
               let defenders := attackers init_board (color capture) square in
               match truthy_square (SS.pop_or_none defenders) with
               | Some defender =>
                   dp <- attr (piece_at init_board defender) ;;
                   if pt_in (piece_type dp) ray_piece_types then
                     let interfering := pp in
                     im <- move_of interfering ;;
                     if SS.mem (to_square im) (between square defender)
                     then return_ true
                     else continue
                   else continue
               | None => continue
               end
             else continue
         | None => continue
         end) ;;
  Ok (or_return false r).

(** The detectors above end with [return False]; the six below have no
    [return] after their loop and answer [None] there. *)

Definition pin (puzzle : Puzzle) : result (option bool) :=
  for_in (drop_last (odd_items (mainline puzzle))) (fun node =>
    let board := node_board node in
    for_in (piece_map board) (fun '(square, piece) =>
      if Bool.eqb (color piece) (pov puzzle) then continue
      else
        let pin_dir := board_pin board (color piece) square in
        if pin_dir =? BB_ALL then continue
        else
          for_in (SS.elements (attacks board square)) (fun attack =>
            match piece_at board attack with
            | Some attacked =>
                if Bool.eqb (color attacked) (pov puzzle)
                   && negb (SS.mem attack pin_dir) then
                  v <- values (piece_type attacked) ;;
                  w <- values (piece_type piece) ;;
                  if (w <? v) || is_hanging board attacked attack
                  then return_ true
                  else continue
                else continue
            | None => continue
            end))).

Definition attacking_f2_f7 (puzzle : Puzzle) : result (option bool) :=
  r <- for_in (odd_items (mainline puzzle)) (fun node =>
         m <- move_of node ;;
         let square := to_square m in
         par <- parent_of node ;;
         if is_some (piece_at (node_board par) (to_square m))
            && ((square =? F2) || (square =? F7)) then
           let king :=
             piece_at (node_board node) (if square =? F7 then E8 else E1) in
           return_
             match king with
             | None => None
             | Some k =>
                 Some (pt_eqb (piece_type k) KING
                       && negb (Bool.eqb (color k) (pov puzzle)))
             end
         else continue) ;;
  Ok (or_return None r).

Definition clearance (puzzle : Puzzle) : result (option bool) :=
  for_in (drop_first (odd_items (mainline puzzle))) (fun node =>
    let board := node_board node in
    par <- parent_of node ;;
    m <- move_of node ;;
    if negb (is_some (piece_at (node_board par) (to_square m))) then
      moved <- attr (piece_at board (to_square m)) ;;
      if pt_in (piece_type moved) ray_piece_types then
        prev <- parent_of par ;;
        prev_move <- move_of prev ;;
        if negb (is_some (promotion_piece prev_move))
           && negb (to_square prev_move =? from_square m)
           && negb (to_square prev_move =? to_square m)
           && negb (is_check (node_board par))
           && (negb (is_check board)
               || negb (pt_eqb (moved_piece_type par) KING)) then
          if (from_square prev_move =? to_square m)
             || SS.mem (from_square prev_move)
                  (between (from_square m) (to_square m)) then
            pp <- parent_of prev ;;
            if negb (is_some (piece_at (node_board pp) (to_square prev_move)))
               || is_in_bad_spot (node_board prev) (to_square prev_move)
            then return_ true
            else continue
          else continue
        else continue
      else continue
    else continue).

Definition en_passant (puzzle : Puzzle) : result (option bool) :=
  for_in (odd_items (mainline puzzle)) (fun node =>
    if pt_eqb (moved_piece_type node) PAWN then
      m <- move_of node ;;
      if negb (square_file (from_square m) =? square_file (to_square m)) then
        par <- parent_of node ;;
        if negb (is_some (piece_at (node_board par) (to_square m)))
        then return_ true
        else continue
      else continue
    else continue).

Definition promotion (puzzle : Puzzle) : result (option bool) :=
  for_in (odd_items (mainline puzzle)) (fun node =>
    m <- move_of node ;;
    if is_some (promotion_piece m) then return_ true else continue).

Definition capturing_defender (puzzle : Puzzle) : result (option bool) :=
  for_in (drop_first (odd_items (mainline puzzle))) (fun node =>
    let board := node_board node in
    par <- parent_of node ;;
    m <- move_of node ;;
    let capture := piece_at (node_board par) (to_square m) in
    c <-
      (if is_checkmate board then Ok true
       else
         match capture with
         | Some cp =>
             if negb (pt_eqb (moved_piece_type node) KING) then
               v <- values (piece_type cp) ;;
               w <- values (moved_piece_type node) ;;
               if v <=? w
               then Ok (is_hanging (node_board par) cp (to_square m))
               else Ok false
             else Ok false
         | None => Ok false
         end) ;;
    if c : bool then
      prev <- parent_of par ;;
      if negb (is_check (node_board prev)) then
        pm <- move_of prev ;;
        if negb (to_square pm =? from_square m) then
          ppp <- parent_of prev ;;
          let init_board := node_board ppp in
          let defender_square := to_square pm in
          match piece_at init_board defender_square with
          | Some defender =>
              if SS.mem defender_square
                   (attackers init_board (color defender) (to_square m))
                 && negb (is_check init_board)
              then return_ true
              else continue
          | None => continue
          end
        else continue
      else continue
    else continue).

Definition mate_in (puzzle : Puzzle) : option TagKind :=
  if negb (is_checkmate (node_board (game_end (game puzzle)))) then None
  else
    let moves_to_mate := (length (mainline puzzle) / 2)%nat in
    if (moves_to_mate =? 1)%nat then Some "mateIn1"
    else if (moves_to_mate =? 2)%nat then Some "mateIn2"
    else if (moves_to_mate =? 3)%nat then Some "mateIn3"
    else if (moves_to_mate =? 4)%nat then Some "mateIn4"
    else Some "mateIn5+".

(** ** The classifier driver *)

(** [tags.append(t)] under [if b:] *)
Definition append_if (b : bool) (tags : list TagKind) (t : TagKind)
  : list TagKind :=
  if b then tags ++ [t] else tags.

Definition cook (puzzle : Puzzle) : result (list TagKind) :=
  let tags : list TagKind := [] in
  let mate_tag := mate_in puzzle in
  let tags :=
    match mate_tag with
    | Some t => tags ++ [t]
    | None => tags
    end in
  b <- attraction puzzle ;;
  let tags := append_if b tags "attraction" in
  b <- deflection puzzle ;;
  let tags := append_if b tags "deflection" in
  b <- advanced_pawn puzzle ;;
  let tags := append_if b tags "advancedPawn" in
  b <- double_check puzzle ;;
  let tags := append_if b tags "doubleCheck" in
  b <- quiet_move puzzle ;;
  let tags := append_if b tags "quietMove" in
  b <- defensive_move puzzle ;;
  let tags := append_if b tags "defensiveMove" in
  b <- sacrifice puzzle ;;
  let tags := append_if b tags "sacrifice" in
  b <- fork puzzle ;;
  let tags := append_if b tags "fork" in
  b <- hanging_piece puzzle ;;
  let tags := append_if b tags "hangingPiece" in
  b <- trapped_piece puzzle ;;
  let tags := append_if b tags "trappedPiece" in
  b <- discovered_attack puzzle ;;
  let tags := append_if b tags "discoveredAttack" in
  b <- exposed_king puzzle ;;
  let tags := append_if b tags "exposedKing" in
  b <- skewer puzzle ;;
  let tags := append_if b tags "skewer" in
  b <- (si <- self_interference puzzle ;;
        if si : bool then Ok true else interference puzzle) ;;
  let tags := append_if b tags "interference" in
  b <- pin puzzle ;;
  let tags := append_if (truthy b) tags "pin" in
  b <- attacking_f2_f7 puzzle ;;
  let tags := append_if (truthy b) tags "attackingF2F7" in
  b <- clearance puzzle ;;
  let tags := append_if (truthy b) tags "clearance" in
  b <- en_passant puzzle ;;
  let tags := append_if (truthy b) tags "enPassant" in
  b <- promotion puzzle ;;
  let tags := append_if (truthy b) tags "promotion" in
  b <- capturing_defender puzzle ;;
  let tags := append_if (truthy b) tags "capturingDefender" in
  let tags :=
    if (length (mainline puzzle) =? 2)%nat then tags ++ ["oneMove"]
    else if (length (mainline puzzle) =? 4)%nat then tags ++ ["short"]
    else if (8 <=? length (mainline puzzle))%nat then tags ++ ["veryLong"]
    else tags ++ ["long"] in
  Ok tags.

End Detectors.

(** ** A reference implementation of the board facade: standard chess

    The rules of standard chess as python-chess implements them, on a board
    kept as the list of its pieces.  Squares are numbered a1 = 0, b1 = 1, ...,
    h8 = 63. *)

Module Std.

Record Position : Type := mkPosition {
  pieces : list (Square * Piece);
  to_move : Color;
  (** the squares of the rooks that may still castle *)
  castling_rights : list Square;
  ep_square : option Square
}.

Definition sq (f r : Z) : Square := r * 8 + f.

Definition on_board (f r : Z) : bool :=
  (0 <=? f) && (f <? 8) && (0 <=? r) && (r <? 8).

Fixpoint lookup (l : list (Square * Piece)) (s : Square) : option Piece :=
  match l with
  | [] => None
  | (s', p) :: l' => if s' =? s then Some p else lookup l' s
  end.

Definition piece_at (b : Position) (s : Square) : option Piece :=
  lookup (pieces b) s.

Definition occupied (b : Position) (s : Square) : bool :=
  is_some (piece_at b s).

Definition has_color (b : Position) (c : Color) (s : Square) : bool :=
  match piece_at b s with
  | Some p => Bool.eqb (color p) c
  | None => false
  end.

(** Pieces from the highest square down, as [piece_map] builds its
    dictionary. *)
Definition piece_map (b : Position) : list (Square * Piece) :=
  flat_map (fun s =>
              match piece_at b s with
              | Some p => [(s, p)]
              | None => []
              end)
           (rev all_squares).

(** *** Attacks *)

(** Squares seen from [(f, r)] in direction [(df, dr)], up to and including
    the first occupied one. *)
Fixpoint slide (fuel : nat) (b : Position) (f r df dr : Z) : list Square :=
  match fuel with
  | O => []
  | S k =>
      let f' := f + df in
      let r' := r + dr in
      if on_board f' r' then
        if occupied b (sq f' r') then [sq f' r']
        else sq f' r' :: slide k b f' r' df dr
      else []
  end.

Definition leaps (s : Square) (offsets : list (Z * Z)) : list Square :=
  flat_map (fun '(df, dr) =>
              let f := square_file s + df in
              let r := square_rank s + dr in
              if on_board f r then [sq f r] else [])
           offsets.

Definition diagonals : list (Z * Z) := [(1, 1); (1, -1); (-1, 1); (-1, -1)].
Definition straights : list (Z * Z) := [(1, 0); (-1, 0); (0, 1); (0, -1)].
Definition knight_leaps : list (Z * Z) :=
  [(1, 2); (2, 1); (2, -1); (1, -2); (-1, -2); (-2, -1); (-2, 1); (-1, 2)].

Definition slides (b : Position) (s : Square) (dirs : list (Z * Z))
  : list Square :=
  flat_map (fun '(df, dr) => slide 7 b (square_file s) (square_rank s) df dr)
           dirs.

Definition pawn_attacks (c : Color) (s : Square) : list Square :=
  leaps s (if c then [(-1, 1); (1, 1)] else [(-1, -1); (1, -1)]).

Definition attack_list (b : Position) (s : Square) : list Square :=
  match piece_at b s with
  | None => []
  | Some p =>
      match piece_type p with
      | PAWN => pawn_attacks (color p) s
      | KNIGHT => leaps s knight_leaps
      | KING => leaps s (diagonals ++ straights)
      | BISHOP => slides b s diagonals
      | ROOK => slides b s straights
      | QUEEN => slides b s (diagonals ++ straights)
      end
  end.

Definition attacks (b : Position) (s : Square) : SquareSet :=
  SS.of_list (attack_list b s).

Definition attacker_list (b : Position) (c : Color) (s : Square)
  : list Square :=
  filter (fun a => has_color b c a && existsb (Z.eqb s) (attack_list b a))
         all_squares.

Definition attackers (b : Position) (c : Color) (s : Square) : SquareSet :=
  SS.of_list (attacker_list b c s).

Definition king (b : Position) (c : Color) : option Square :=
  hd_error
    (filter (fun s => opt_piece_is (piece_at b s) (mkPiece KING c))
            (rev all_squares)).

Definition checker_list (b : Position) : list Square :=
  match king b (to_move b) with
  | Some k => attacker_list b (negb (to_move b)) k
  | None => []
  end.

Definition checkers (b : Position) : SquareSet := SS.of_list (checker_list b).

Definition is_check (b : Position) : bool := SS.nonempty (checkers b).

(** *** Lines *)

Definition aligned (a b : Square) : bool :=
  let df := square_file b - square_file a in
  let dr := square_rank b - square_rank a in
  negb (a =? b) && ((df =? 0) || (dr =? 0) || (Z.abs df =? Z.abs dr)).

Fixpoint walk (fuel : nat) (f r df dr : Z) (stop : Square) : list Square :=
  match fuel with
  | O => []
  | S k =>
      let f' := f + df in
      let r' := r + dr in
      if on_board f' r' && negb (sq f' r' =? stop)
      then sq f' r' :: walk k f' r' df dr stop
      else []
  end.

(** The squares strictly between two aligned squares. *)
Definition between_list (a b : Square) : list Square :=
  if aligned a b then
    walk 7 (square_file a) (square_rank a)
         (Z.sgn (square_file b - square_file a))
         (Z.sgn (square_rank b - square_rank a)) b
  else [].

Definition between (a b : Square) : SquareSet := SS.of_list (between_list a b).

(** The whole line through two aligned squares, edge to edge. *)
Definition ray (a b : Square) : SquareSet :=
  if aligned a b then
    let df := Z.sgn (square_file b - square_file a) in
    let dr := Z.sgn (square_rank b - square_rank a) in
    SS.of_list
      (a :: walk 7 (square_file a) (square_rank a) df dr (-1)
         ++ walk 7 (square_file a) (square_rank a) (- df) (- dr) (-1))
  else 0.

(** [board.pin(color, square)]: the line a piece on [square] is pinned to,
    or every square when it is not pinned to the king of [color]. *)
Definition pin (b : Position) (c : Color) (s : Square) : SquareSet :=
  match king b c with
  | None => BB_ALL
  | Some k =>
      let pins sniper :=
        match piece_at b sniper with
        | Some p =>
            let straight :=
              (square_file sniper =? square_file k)
              || (square_rank sniper =? square_rank k) in
            Bool.eqb (color p) (negb c)
            && aligned k sniper
            && pt_in (piece_type p)
                 (if straight then [ROOK; QUEEN] else [BISHOP; QUEEN])
            && existsb (Z.eqb s) (between_list sniper k)
            && forallb (fun x => (x =? s) || negb (occupied b x))
                 (between_list sniper k)
        | None => false
        end in
      match filter pins (rev all_squares) with
      | sniper :: _ => ray k sniper
      | [] => BB_ALL
      end
  end.

(** *** Playing a move ([board.push]) *)

Definition remove (l : list (Square * Piece)) (s : Square)
  : list (Square * Piece) :=
  filter (fun '(s', _) => negb (s' =? s)) l.

Definition relocate (l : list (Square * Piece)) (a b : Square)
  : list (Square * Piece) :=
  match lookup l a with
  | Some p => (b, p) :: remove l a
  | None => l
  end.

Definition is_pawn_at (b : Position) (s : Square) : bool :=
  match piece_at b s with
  | Some p => pt_eqb (piece_type p) PAWN
  | None => false
  end.

Definition is_king_at (b : Position) (s : Square) : bool :=
  match piece_at b s with
  | Some p => pt_eqb (piece_type p) KING
  | None => false
  end.

Definition is_en_passant (b : Position) (m : Move) : bool :=
  is_pawn_at b (from_square m)
  && negb (square_file (from_square m) =? square_file (to_square m))
  && negb (occupied b (to_square m)).

Definition is_castling (b : Position) (m : Move) : bool :=
  is_king_at b (from_square m)
  && (Z.abs (square_file (to_square m) - square_file (from_square m)) =? 2).

Definition push (b : Position) (m : Move) : Position :=
  let f := from_square m in
  let t := to_square m in
  match piece_at b f with
  | None => b
  | Some p =>
      let ps := remove (remove (pieces b) f) t in
      let ps :=
        if is_en_passant b m
        then remove ps (sq (square_file t) (square_rank f))
        else ps in
      let placed :=
        match promotion_piece m with
        | Some pt => mkPiece pt (color p)
        | None => p
        end in
      let ps := (t, placed) :: ps in
      let ps :=
        if is_castling b m then
          if square_file t =? 6
          then relocate ps (sq 7 (square_rank f)) (sq 5 (square_rank f))
          else relocate ps (sq 0 (square_rank f)) (sq 3 (square_rank f))
        else ps in
      let rights :=
        filter (fun rs =>
                  negb (rs =? f) && negb (rs =? t)
                  && negb (is_king_at b f
                           && (square_rank rs =? square_rank f)))
               (castling_rights b) in
      let ep :=
        if is_pawn_at b f && (Z.abs (square_rank t - square_rank f) =? 2)
        then Some (sq (square_file f) ((square_rank f + square_rank t) / 2))
        else None in
      mkPosition ps (negb (to_move b)) rights ep
  end.

(** *** Legal moves *)

Definition promotions (c : Color) (f t : Square) : list Move :=
  if square_rank t =? (if c then 7 else 0)
  then map (fun pt => mkMove f t (Some pt)) [QUEEN; ROOK; BISHOP; KNIGHT]
  else [mkMove f t None].

Definition is_ep_square (b : Position) (t : Square) : bool :=
  match ep_square b with
  | Some e => e =? t
  | None => false
  end.

Definition pawn_moves (b : Position) (c : Color) (s : Square) : list Move :=
  let dir := if c then 1 else -1 in
  let f := square_file s in
  let r := square_rank s in
  let captures :=
    flat_map (fun t =>
                if has_color b (negb c) t || is_ep_square b t
                then promotions c s t else [])
             (pawn_attacks c s) in
  let one := sq f (r + dir) in
  let two := sq f (r + 2 * dir) in
  let pushes :=
    if on_board f (r + dir) && negb (occupied b one) then
      promotions c s one
      ++ (if (r =? (if c then 1 else 6)) && negb (occupied b two)
          then [mkMove s two None] else [])
    else [] in
  captures ++ pushes.

Definition piece_moves (b : Position) (c : Color) (s : Square) : list Move :=
  map (fun t => mkMove s t None)
      (filter (fun t => negb (has_color b c t)) (attack_list b s)).

Definition attacked_by (b : Position) (c : Color) (s : Square) : bool :=
  SS.nonempty (attackers b c s).

Definition castling_moves (b : Position) (c : Color) : list Move :=
  let r := if c then 0 else 7 in
  let k := sq 4 r in
  let may rook_file empty safe target :=
    if existsb (Z.eqb (sq rook_file r)) (castling_rights b)
       && opt_piece_is (piece_at b (sq rook_file r)) (mkPiece ROOK c)
       && forallb (fun f => negb (occupied b (sq f r))) empty
       && forallb (fun f => negb (attacked_by b (negb c) (sq f r))) safe
    then [mkMove k (sq target r) None] else [] in
  if opt_piece_is (piece_at b k) (mkPiece KING c)
     && negb (attacked_by b (negb c) k)
  then may 7 [5; 6] [5; 6] 6 ++ may 0 [1; 2; 3] [2; 3] 2
  else [].

Definition pseudo_legal_moves (b : Position) : list Move :=
  let c := to_move b in
  flat_map (fun s =>
              if has_color b c s then
                if is_pawn_at b s then pawn_moves b c s
                else piece_moves b c s
              else [])
           all_squares
  ++ castling_moves b c.

Definition leaves_king_safe (b : Position) (m : Move) : bool :=
  let b' := push b m in
  match king b' (to_move b) with
  | Some k => negb (attacked_by b' (negb (to_move b)) k)
  | None => true
  end.

Definition legal_moves (b : Position) : list Move :=
  filter (leaves_king_safe b) (pseudo_legal_moves b).

Definition legal_moves_count (b : Position) : Z :=
  Z.of_nat (length (legal_moves b)).

Definition is_checkmate (b : Position) : bool :=
  is_check b
  && match legal_moves b with
     | [] => true
     | _ :: _ => false
     end.

(** [board.mirror()]: the board flipped vertically, colours swapped. *)
Definition mirror (b : Position) : Position :=
  mkPosition
    (map (fun '(s, p) =>
            (Z.lxor s 56, mkPiece (piece_type p) (negb (color p))))
         (pieces b))
    (negb (to_move b))
    (map (fun s => Z.lxor s 56) (castling_rights b))
    (option_map (fun s => Z.lxor s 56) (ep_square b)).

Definition engine : Engine :=
  @Build_Engine Position to_move piece_at piece_map attackers attacks
    checkers is_check is_checkmate pin king mirror legal_moves_count between.

#[global] Existing Instance engine.

End Std.

(** ** A reference implementation of [util] over standard chess

    Modelled from the spec: the module [util] is not among the sources.
    Sections 4.1 to 4.3 describe [material_diff], [moved_piece_type],
    [is_advanced_pawn_move], [attacked_opponent_squares], [is_hanging],
    [is_trapped] and the two successor helpers; [is_capture] is the capture
    test of the rules engine on the parent position, and [is_in_bad_spot],
    which the spec does not describe, is taken to be the hanging test on the
    piece of the square. *)

Module StdUtil.

Definition node : Type := @GameNode Std.engine.

(** The king is left out of the material count; in comparisons it stands
    above the queen, at 10. *)
Definition count_value (pt : PieceType) : Z :=
  match values pt with
  | Ok v => v
  | Raise _ => 0
  end.

Definition rank_value (pt : PieceType) : Z :=
  match values pt with
  | Ok v => v
  | Raise _ => 10
  end.

Definition material_count (b : Std.Position) (c : Color) : Z :=
  fold_right (fun '(_, p) acc =>
                if Bool.eqb (color p) c
                then count_value (piece_type p) + acc else acc)
             0 (Std.pieces b).

Definition material_diff (b : Std.Position) (c : Color) : Z :=
  material_count b c - material_count b (negb c).

Definition moved_piece_type (n : node) : PieceType :=
  match node_move n with
  | Some m =>
      match Std.piece_at (node_board n) (to_square m) with
      | Some p => piece_type p
      | None => PAWN
      end
  | None => PAWN
  end.

Definition is_advanced_pawn_move (n : node) : bool :=
  match node_move n, node_parent n with
  | Some m, Some par =>
      match Std.piece_at (node_board par) (from_square m) with
      | Some p =>
          pt_eqb (piece_type p) PAWN
          && (if color p then 4 <? square_rank (to_square m)
              else square_rank (to_square m) <? 3)
      | None => false
      end
  | _, _ => false
  end.

Definition is_capture (n : node) : bool :=
  match node_move n, node_parent n with
  | Some m, Some par =>
      let b := node_board par in
      Std.has_color b (negb (Std.to_move b)) (to_square m)
      || Std.is_en_passant b m
  | _, _ => false
  end.

Definition attacked_opponent_squares (b : Std.Position) (from : Square)
    (pov : Color) : list (Piece * Square) :=
  flat_map (fun s =>
              match Std.piece_at b s with
              | Some p => if Bool.eqb (color p) pov then [] else [(p, s)]
              | None => []
              end)
           (SS.elements (Std.attacks b from)).

Definition attacked_opponent_pieces (b : Std.Position) (from : Square)
    (pov : Color) : list Piece :=
  map fst (attacked_opponent_squares b from pov).

Definition value_at (b : Std.Position) (s : Square) : Z :=
  match Std.piece_at b s with
  | Some p => rank_value (piece_type p)
  | None => 10
  end.

(** The piece can be taken, and it is either undefended or worth more than
    its weakest attacker. *)
Definition is_hanging (b : Std.Position) (piece : Piece) (s : Square) : bool :=
  match Std.attacker_list b (negb (color piece)) s with
  | [] => false
  | a :: rest =>
      match Std.attacker_list b (color piece) s with
      | [] => true
      | _ :: _ =>
          fold_right Z.min (value_at b a) (map (value_at b) rest)
          <? rank_value (piece_type piece)
      end
  end.

Definition is_in_bad_spot (b : Std.Position) (s : Square) : bool :=
  match Std.piece_at b s with
  | Some p => is_hanging b p s
  | None => false
  end.

(** Every legal move of the piece leaves it hanging where it lands. *)
Definition is_trapped (b : Std.Position) (s : Square) : bool :=
  match Std.piece_at b s with
  | Some p =>
      forallb (fun m => is_hanging (Std.push b m) p (to_square m))
              (filter (fun m => from_square m =? s) (Std.legal_moves b))
  | None => false
  end.

Definition next_node (n : node) : option node :=
  if (node_ply n <? length (plies (node_game n)))%nat
  then Some (mkNode (node_game n) (S (node_ply n)))
  else None.

Definition next_next_node (n : node) : option node :=
  match next_node n with
  | Some nn => next_node nn
  | None => None
  end.

Definition util : @Util Std.engine :=
  @Build_Util Std.engine material_diff moved_piece_type
    is_advanced_pawn_move is_capture attacked_opponent_squares
    attacked_opponent_pieces is_hanging is_trapped is_in_bad_spot
    next_node next_next_node.

#[global] Existing Instance util.

End StdUtil.

(** ** Reading positions and moves

    Positions are written in Forsyth-Edwards notation and moves in the
    coordinate notation of UCI, as the puzzle generator stores them. *)

Module Fen.

Definition piece_of_char (c : ascii) : option Piece :=
  match c with
  | "P"%char => Some (mkPiece PAWN WHITE)
  | "N"%char => Some (mkPiece KNIGHT WHITE)
  | "B"%char => Some (mkPiece BISHOP WHITE)
  | "R"%char => Some (mkPiece ROOK WHITE)
  | "Q"%char => Some (mkPiece QUEEN WHITE)
  | "K"%char => Some (mkPiece KING WHITE)
  | "p"%char => Some (mkPiece PAWN BLACK)
  | "n"%char => Some (mkPiece KNIGHT BLACK)
  | "b"%char => Some (mkPiece BISHOP BLACK)
  | "r"%char => Some (mkPiece ROOK BLACK)
  | "q"%char => Some (mkPiece QUEEN BLACK)
  | "k"%char => Some (mkPiece KING BLACK)
  | _ => None
  end.

Definition code (c : ascii) : Z := Z.of_nat (nat_of_ascii c).

Fixpoint placement (s : string) (f r : Z) : list (Square * Piece) :=
  match s with
  | EmptyString => []
  | String c s' =>
      if code c =? 47 then placement s' 0 (r - 1)
      else if (49 <=? code c) && (code c <=? 56)
      then placement s' (f + (code c - 48)) r
      else
        match piece_of_char c with
        | Some p => (Std.sq f r, p) :: placement s' (f + 1) r
        | None => placement s' f r
        end
  end.

Definition square_of (file rank : ascii) : Square :=
  Std.sq (code file - 97) (code rank - 49).

Fixpoint fields (s cur : string) : list string :=
  match s with
  | EmptyString => [cur]
  | String c s' =>
      if code c =? 32 then cur :: fields s' EmptyString
      else fields s' (String.append cur (String c EmptyString))
  end.

Fixpoint rights (s : string) : list Square :=
  match s with
  | EmptyString => []
  | String c s' =>
      match c with
      | "K"%char => 7 :: rights s'
      | "Q"%char => 0 :: rights s'
      | "k"%char => 63 :: rights s'
      | "q"%char => 56 :: rights s'
      | _ => rights s'
      end
  end.

Definition en_passant_square (s : string) : option Square :=
  match s with
  | String f (String r EmptyString) => Some (square_of f r)
  | _ => None
  end.

Definition white_to_move (s : string) : Color :=
  match s with
  | String c _ => code c =? 119
  | EmptyString => true
  end.

Definition parse (fen : string) : Std.Position :=
  match fields fen EmptyString with
  | pl :: side :: castle :: ep :: _ =>
      Std.mkPosition (placement pl 0 7) (white_to_move side) (rights castle)
        (en_passant_square ep)
  | _ => Std.mkPosition [] true [] None
  end.

Definition uci (s : string) : Move :=
  match s with
  | String a (String b (String c (String d rest))) =>
      mkMove (square_of a b) (square_of c d)
        match rest with
        | String p _ => option_map piece_type (piece_of_char p)
        | EmptyString => None
        end
  | _ => mkMove 0 0 None
  end.

Fixpoint play (b : Std.Position) (moves : list Move)
  : list (Move * Std.Position) :=
  match moves with
  | [] => []
  | m :: rest => let b' := Std.push b m in (m, b') :: play b' rest
  end.

(** The puzzle of a game given by its starting position and its moves; the
    point of view is the side that does not move first. *)
Definition puzzle (name fen : string) (moves : list string)
  : @Puzzle Std.engine :=
  let start := parse fen in
  @mkPuzzle Std.engine name
    (@mkGame Std.engine start (play start (map uci moves)))
    (negb (Std.to_move start)).

End Fen.


(** ** The driver as a run through a catalog

    [cook] asks one detector after the other and appends the tag of each one
    that answers a true value.  [catalog] lists the tags with their detectors
    in the order in which [cook] asks them, and [run] is that loop. *)

Section Catalog.

Context {E : Engine} {U : Util}.

(** [self_interference(puzzle) or interference(puzzle)] *)
Definition interference_either (puzzle : Puzzle) : result bool :=
  si <- self_interference puzzle ;;
  if si : bool then Ok true else interference puzzle.

(** The truth value of a detector that may answer [None]. *)
Definition truth (d : Puzzle -> result (option bool)) (puzzle : Puzzle)
  : result bool :=
  b <- d puzzle ;; Ok (truthy b).

Definition catalog : list (TagKind * (Puzzle -> result bool)) :=
  [ ("attraction", attraction);
    ("deflection", deflection);
    ("advancedPawn", advanced_pawn);
    ("doubleCheck", double_check);
    ("quietMove", quiet_move);
    ("defensiveMove", defensive_move);
    ("sacrifice", sacrifice);
    ("fork", fork);
    ("hangingPiece", hanging_piece);
    ("trappedPiece", trapped_piece);
    ("discoveredAttack", discovered_attack);
    ("exposedKing", exposed_king);
    ("skewer", skewer);
    ("interference", interference_either);
    ("pin", truth pin);
    ("attackingF2F7", truth attacking_f2_f7);
    ("clearance", truth clearance);
    ("enPassant", truth en_passant);
    ("promotion", truth promotion);
    ("capturingDefender", truth capturing_defender) ].

Fixpoint run (puzzle : Puzzle) (l : list (TagKind * (Puzzle -> result bool)))
    (tags : list TagKind) : result (list TagKind) :=
  match l with
  | [] => Ok tags
  | (t, d) :: l' =>
      b <- d puzzle ;;
      run puzzle l' (append_if b tags t)
  end.

(** The detector returns normally, with a true value. *)
Definition fires (puzzle : Puzzle) (td : TagKind * (Puzzle -> result bool))
  : bool :=
  match snd td puzzle with
  | Ok true => true
  | _ => false
  end.

(** The detector returns normally. *)
Definition returns_normally (puzzle : Puzzle)
    (td : TagKind * (Puzzle -> result bool)) : Prop :=
  exists b, snd td puzzle = Ok b.

(** The positions the material balance is taken at, and the balances. *)
Definition balances (puzzle : Puzzle) : list Z :=
  map (fun n => material_diff (node_board n) (pov puzzle)) (mainline puzzle).

(** *** The fork condition on one move, in the words of the catalog *)

(** The attacked piece is a king, or is worth more than the piece that
    moved, or hangs. *)
Definition fork_target (node : GameNode) (ps : Piece * Square) : bool :=
  let '(piece, square) := ps in
  negb (pt_eqb (piece_type piece) PAWN)
  && (pt_eqb (piece_type piece) KING
      || match values (piece_type piece), values (moved_piece_type node) with
         | Ok v, Ok w => w <? v
         | _, _ => false
         end
      || is_hanging (node_board node) piece square).

Definition fork_targets (puzzle : Puzzle) (node : GameNode)
  : list (Piece * Square) :=
  match node_move node with
  | Some m =>
      filter (fork_target node)
        (attacked_opponent_squares (node_board node) (to_square m)
           (pov puzzle))
  | None => []
  end.

(** A move that does not move the king, attacks at least two such pieces
    and does not give checkmate. *)
Definition is_fork_move (puzzle : Puzzle) (node : GameNode) : bool :=
  negb (pt_eqb (moved_piece_type node) KING)
  && negb (is_checkmate (node_board node))
  && (2 <=? length (fork_targets puzzle node))%nat.

(** A move of a piece other than the king that gives checkmate. *)
Definition is_mating_move (node : GameNode) : bool :=
  negb (pt_eqb (moved_piece_type node) KING)
  && is_checkmate (node_board node).

(** The moves [fork] looks at: the moves of pov but the last. *)
Definition fork_examined (puzzle : Puzzle) : list GameNode :=
  drop_last (odd_items (mainline puzzle)).

(** Some move that [fork] looks at is a fork, and no move examined before
    it is a mating move of a piece other than the king. *)
Definition fork_found (puzzle : Puzzle) : Prop :=
  exists (i : nat) (node : GameNode),
    nth_error (fork_examined puzzle) i = Some node
    /\ is_fork_move puzzle node = true
    /\ forall (j : nat) (prev : GameNode),
         (j < i)%nat ->
         nth_error (fork_examined puzzle) j = Some prev ->
         is_mating_move prev = false.

(** *** The quiet move condition *)

(** A move of pov that is not the last move of the puzzle. *)
Definition is_inner_pov_move (puzzle : Puzzle) (node : GameNode) : bool :=
  negb (Bool.eqb (node_turn node) (pov puzzle)) && negb (node_is_end node).

(** Nobody is in check before the move nor after it. *)
Definition without_check (node : GameNode) : bool :=
  negb (SS.nonempty (checkers (node_board node)))
  && match node_parent node with
     | Some par => negb (SS.nonempty (checkers (node_board par)))
     | None => false
     end.

(** A move of pov, not the last of the puzzle, without check and without
    capture. *)
Definition is_quiet_candidate (puzzle : Puzzle) (node : GameNode) : bool :=
  is_inner_pov_move puzzle node
  && without_check node
  && negb (is_capture node).

(** The moved piece attacks no piece of the opponent where it lands. *)
Definition attacks_nothing (puzzle : Puzzle) (node : GameNode) : bool :=
  match node_move node with
  | Some m =>
      match attacked_opponent_pieces (node_board node) (to_square m)
              (pov puzzle) with
      | [] => true
      | _ :: _ => false
      end
  | None => false
  end.

(** The first move of pov, not the last of the puzzle, that comes without
    check and without capture attacks nothing. *)
Definition quiet_found (puzzle : Puzzle) : Prop :=
  exists (i : nat) (node : GameNode),
    nth_error (mainline puzzle) i = Some node
    /\ is_quiet_candidate puzzle node = true
    /\ attacks_nothing puzzle node = true
    /\ forall (j : nat) (prev : GameNode),
         (j < i)%nat ->
         nth_error (mainline puzzle) j = Some prev ->
         is_quiet_candidate puzzle prev = false.

(** The first move of pov that is not the last move of the puzzle. *)
Definition first_inner_pov_move (puzzle : Puzzle) : option GameNode :=
  find (is_inner_pov_move puzzle) (mainline puzzle).

(** *** The signature of a capture en passant *)

Definition en_passant_signature (node : GameNode) : bool :=
  pt_eqb (moved_piece_type node) PAWN
  && match node_move node, node_parent node with
     | Some m, Some par =>
         negb (square_file (from_square m) =? square_file (to_square m))
         && negb (is_some (piece_at (node_board par) (to_square m)))
     | _, _ => false
     end.

End Catalog.

(** ** Tags and their orders *)

Definition mate_tags : list TagKind :=
  ["mateIn1"; "mateIn2"; "mateIn3"; "mateIn4"; "mateIn5+"].

Definition length_tags : list TagKind :=
  ["oneMove"; "short"; "long"; "veryLong"].

(** The motif tags in the order in which [cook] asks their detectors. *)
Definition motif_order : list TagKind :=
  ["attraction"; "deflection"; "advancedPawn"; "doubleCheck"; "quietMove";
   "defensiveMove"; "sacrifice"; "fork"; "hangingPiece"; "trappedPiece";
   "discoveredAttack"; "exposedKing"; "skewer"; "interference"; "pin";
   "attackingF2F7"; "clearance"; "enPassant"; "promotion";
   "capturingDefender"].

Definition evaluation_order : list TagKind :=
  mate_tags ++ motif_order ++ length_tags.

(** The motif tags in the order in which the table of section 4.4 of the spec
    lists their detectors: double_check, sacrifice, fork, hangingPiece,
    trappedPiece, discoveredAttack, (discoveredCheck, which has no tag of its
    own,) quietMove, defensiveMove, attraction, deflection, exposedKing,
    skewer, self_interference and interference, pin, attackingF2F7, clearance,
    enPassant, promotion, capturingDefender. *)
Definition spec_catalog_order : list TagKind :=
  ["doubleCheck"; "sacrifice"; "fork"; "hangingPiece"; "trappedPiece";
   "discoveredAttack"; "quietMove"; "defensiveMove"; "attraction";
   "deflection"; "exposedKing"; "skewer"; "interference"; "pin";
   "attackingF2F7"; "clearance"; "enPassant"; "promotion";
   "capturingDefender"].

(** The place of a tag in an order (the length of the order when absent). *)
Fixpoint rank (order : list TagKind) (t : TagKind) : nat :=
  match order with
  | [] => O
  | x :: rest => if String.eqb x t then O else S (rank rest t)
  end.

Definition listed (order : list TagKind) (t : TagKind) : bool :=
  existsb (String.eqb t) order.

Definition before (order : list TagKind) (a b : TagKind) : Prop :=
  (rank order a < rank order b)%nat.

(** Any two tags of [tags] that the order lists stand in [tags] as they do in
    the order. *)
Definition in_relative_order (order tags : list TagKind) : Prop :=
  forall (i j : nat) (a b : TagKind),
    (i < j)%nat ->
    nth_error tags i = Some a ->
    nth_error tags j = Some b ->
    listed order a = true ->
    listed order b = true ->
    before order a b.

(** [l1] is [l2] with some items left out. *)
Inductive Subseq {A : Type} : list A -> list A -> Prop :=
| Subseq_nil : Subseq [] []
| Subseq_skip (x : A) (l1 l2 : list A) : Subseq l1 l2 -> Subseq l1 (x :: l2)
| Subseq_take (x : A) (l1 l2 : list A) :
    Subseq l1 l2 -> Subseq (x :: l1) (x :: l2).

Fixpoint sortedb (order : list TagKind) (l : list TagKind) : bool :=
  match l with
  | [] => true
  | a :: rest =>
      forallb (fun b => (rank order a <? rank order b)%nat) rest
      && sortedb order rest
  end.

(** The length tag of a mainline of [n] plies, in the words of the spec:
    2 gives oneMove, 4 gives short, 8 and more give veryLong, anything else
    gives long. *)
Definition length_category (n : nat) : TagKind :=
  if (n =? 2)%nat then "oneMove"
  else if (n =? 4)%nat then "short"
  else if (8 <=? n)%nat then "veryLong"
  else "long".

Definition opt_list {A : Type} (o : option A) : list A :=
  match o with
  | Some a => [a]
  | None => []
  end.

(** *** Recovery of the material balance

    The balance has recovered by ply [j] when, at some ply up to [j], it is
    back at the initial value or above after having been below it. *)
Definition recovered_by (diffs : list Z) (j : nat) : Prop :=
  exists (i' i : nat) (d0 d' d : Z),
    (i' < i)%nat /\ (i <= j)%nat /\
    nth_error diffs 0 = Some d0 /\
    nth_error diffs i' = Some d' /\
    nth_error diffs i = Some d /\
    d' < d0 /\ d0 <= d.

(** The balance at ply [j], a move of pov after the first one, is at least 2
    under the initial one. *)
Definition dropped_at (diffs : list Z) (j : nat) : Prop :=
  exists (k : nat) (d0 d : Z),
    j = (2 * k + 3)%nat /\
    nth_error diffs 0 = Some d0 /\
    nth_error diffs j = Some d /\
    d - d0 <= -2.

(** ** Games used as examples *)

Module Examples.

(** Black gives up a knight for a knight and then wins a rook:
    1... Nd4 2. h3 Nxf3+ 3. Bxf3 Bxa1 4. Kh2.  White is pov. *)
Definition exchange_then_loss : Puzzle :=
  Fen.puzzle "exchange"
    "6k1/5pbp/6p1/1n6/8/5N2/4BPPP/R5K1 b - - 0 1"
    ["b5d4"; "h2h3"; "d4f3"; "e2f3"; "g7a1"; "g1h2"].

(** A knight forks queen and rook with the only move of the puzzle:
    1... Kh8 2. Nd6.  White is pov. *)
Definition fork_in_one : Puzzle :=
  Fen.puzzle "fork"
    "6k1/5rpp/8/1q6/4N3/8/6PP/6K1 b - - 0 1"
    ["g8h8"; "e4d6"].

(** The same fork, played out: 1... Kh8 2. Nd6 Rf8 3. Nxb5. *)
Definition fork_then_capture : Puzzle :=
  Fen.puzzle "forkplayed"
    "6k1/5rpp/8/1q6/4N3/8/6PP/6K1 b - - 0 1"
    ["g8h8"; "e4d6"; "f7f8"; "d6b5"].

(** Pov first captures, then plays a quiet move:
    1... Rb8 2. Nxe5 h6 3. a3 Kh7 4. h3. *)
Definition capture_then_quiet : Puzzle :=
  Fen.puzzle "quiet"
    "r5k1/6pp/8/4p3/8/5N2/P5PP/R5K1 b - - 0 1"
    ["a8b8"; "f3e5"; "h7h6"; "a2a3"; "g8h7"; "h2h3"].

(** The opponent captures en passant, pov answers with a king move:
    1... dxe3 2. Kf1. *)
Definition opponent_en_passant : Puzzle :=
  Fen.puzzle "enpassant"
    "6k1/8/8/8/3pP3/8/6PP/6K1 b - e3 0 1"
    ["d4e3"; "g1f1"].

(** Pov captures en passant: 1... d5 2. exd6. *)
Definition pov_en_passant : Puzzle :=
  Fen.puzzle "povenpassant"
    "6k1/3p4/8/4P3/8/8/6PP/6K1 b - - 0 1"
    ["d7d5"; "e5d6"].

(** A queen is left hanging and taken; the mainline has three plies:
    2... Qh4 3. Nxh4 Nc6. *)
Definition three_plies : Puzzle :=
  Fen.puzzle "threeplies"
    "rnbqkbnr/pppp1ppp/8/4p3/4P3/5N2/PPPP1PPP/RNBQKB1R b KQkq - 1 2"
    ["d8h4"; "f3h4"; "b8c6"].

(** The same game with one ply less and with one ply more. *)
Definition two_plies : Puzzle :=
  Fen.puzzle "twoplies"
    "rnbqkbnr/pppp1ppp/8/4p3/4P3/5N2/PPPP1PPP/RNBQKB1R b KQkq - 1 2"
    ["d8h4"; "f3h4"].

Definition four_plies : Puzzle :=
  Fen.puzzle "fourplies"
    "rnbqkbnr/pppp1ppp/8/4p3/4P3/5N2/PPPP1PPP/RNBQKB1R b KQkq - 1 2"
    ["d8h4"; "f3h4"; "b8c6"; "b1c3"].

(** The knight on d4 is guarded by the rook on h4 and by the queen on d8;
    pov shuts the rank with a pawn, the opponent shuts the file with a
    bishop: 1... a6 2. f4 Bd6 3. Rxd4. *)
Definition both_lines_shut : Puzzle :=
  Fen.puzzle "interference"
    "3q2k1/p3b1pp/8/8/3n3r/8/P4PPP/3R2K1 b - - 0 1"
    ["a7a6"; "f2f4"; "e7d6"; "d1d4"].

(** Scholar's mate: 3... Nf6 4. Qxf7 mate. *)
Definition scholars_mate : Puzzle :=
  Fen.puzzle "scholar"
    "r1bqkbnr/pppp1ppp/2n5/4p3/2B1P3/5Q2/PPPP1PPP/RNB1K1NR b KQkq - 3 3"
    ["g8f6"; "f3f7"].

End Examples.

(** ** Conditions of the other detectors, one move at a time *)

Section Conditions.

Context {E : Engine} {U : Util}.

(** [double_check]: the position after the move has more than one checker. *)
Definition gives_double_check (node : GameNode) : bool :=
  1 <? SS.len (checkers (node_board node)).

(** [promotion]: the move names a promotion piece. *)
Definition promotes (node : GameNode) : bool :=
  match node_move node with
  | Some m => is_some (promotion_piece m)
  | None => false
  end.

(** [discovered_check]: there is a check, and the piece that moved is not
    among the checkers. *)
Definition uncovers_check (node : GameNode) : bool :=
  SS.nonempty (checkers (node_board node))
  && match node_move node with
     | Some m => negb (SS.mem (to_square m) (checkers (node_board node)))
     | None => false
     end.

(** [attacking_f2_f7]: the move takes something on f2 or on f7. *)
Definition captures_on_f2_f7 (node : GameNode) : bool :=
  match node_move node, node_parent node with
  | Some m, Some par =>
      is_some (piece_at (node_board par) (to_square m))
      && ((to_square m =? F2) || (to_square m =? F7))
  | _, _ => false
  end.

(** [attacking_f2_f7]: what stands on e8 (after a move to f7) or on e1 (after
    any other move) is a king of the opponent; [None] on an empty square. *)
Definition king_next_door (puzzle : Puzzle) (node : GameNode) : option bool :=
  match node_move node with
  | Some m =>
      match piece_at (node_board node)
              (if to_square m =? F7 then E8 else E1) with
      | None => None
      | Some k =>
          Some (pt_eqb (piece_type k) KING
                && negb (Bool.eqb (color k) (pov puzzle)))
      end
  | None => None
  end.

(** [hanging_piece]: the first move of pov lands on a piece that is not a
    pawn and that hangs in the position before it. *)
Definition takes_hanging_piece (m0 m1 : GameNode) : bool :=
  match node_move m1 with
  | Some mv =>
      match piece_at (node_board m0) (to_square mv) with
      | Some c =>
          negb (pt_eqb (piece_type c) PAWN)
          && is_hanging (node_board m0) c (to_square mv)
      | None => false
      end
  | None => false
  end.

(** [defensive_move]: the last move, played from a position with at least
    three legal moves, gives no check, takes nothing, attacks nothing and is
    no advanced pawn move. *)
Definition is_defensive (puzzle : Puzzle) (before last : GameNode) : bool :=
  negb (legal_moves_count (node_board before) <? 3)
  && negb (SS.nonempty (checkers (node_board last)) || is_capture last)
  && attacks_nothing puzzle last
  && negb (is_advanced_pawn_move last).

(** [self_interference] and [interference]: the piece taken by the move has,
    in the position [back] plies before the move, its lowest defender on a1. *)
Definition lowest_defender_on_a1 (back : nat) (node : GameNode) : bool :=
  match node_move node, node_parent node with
  | Some m, Some par =>
      match piece_at (node_board par) (to_square m) with
      | Some capture =>
          match SS.pop_or_none
                  (attackers
                     (node_board (mkNode (node_game node) (node_ply node - back)))
                     (color capture) (to_square m)) with
          | Some s => s =? 0
          | None => false
          end
      | None => true
      end
  | _, _ => false
  end.

End Conditions.

(** ** More games *)

Module Games.

(** A discovered check: 1... a6 2. Nc5+, the rook on e1 gives the check. *)
Definition discovered : Puzzle :=
  Fen.puzzle "discovered"
    "4k3/p7/8/8/4N3/8/8/4R1K1 b - - 0 1"
    ["a7a6"; "e4c5"].

(** The queen on a1 guards the knight on d4; White shuts the diagonal with
    the rook and Black, who is pov, takes the knight:
    1. h3 h6 2. Rc3 Rxd4. *)
Definition defender_on_a1 : Puzzle :=
  Fen.puzzle "a1"
    "3r2k1/6pp/8/8/3N4/8/6PP/Q1R3K1 w - - 0 1"
    ["h2h3"; "h7h6"; "c1c3"; "d8d4"].

(** The same game one file to the right: the queen stands on b1 and the
    knight on e4. *)
Definition defender_on_b1 : Puzzle :=
  Fen.puzzle "b1"
    "4r1k1/6pp/8/8/4N3/8/6PP/1Q1R2K1 w - - 0 1"
    ["h2h3"; "h7h6"; "d1d3"; "e8e4"].

(** A game of one ply and a game without a move, both from the final
    position of the fool's mate. *)
Definition mated_one_ply : Puzzle :=
  Fen.puzzle "oneply"
    "rnbqkbnr/pppp1ppp/8/4p3/6P1/5P2/PPPPP2P/RNBQKBNR b KQkq - 0 2"
    ["d8h4"].

Definition mated_no_ply : Puzzle :=
  Fen.puzzle "noply"
    "rnb1kbnr/pppp1ppp/8/4p3/6Pq/5P2/PPPPP2P/RNBQKBNR w KQkq - 1 3"
    [].

(** Pov takes on f2 with the king, far from any king of the opponent, and
    later on f7 with check, next to the king on e8:
    1... Kd8 2. Kxf2 Ke8 3. Bxf7+. *)
Definition two_captures : Puzzle :=
  Fen.puzzle "f2f7"
    "4k3/5p2/8/8/2B5/8/5pK1/8 b - - 0 1"
    ["e8d8"; "g2f2"; "d8e8"; "c4f7"].

End Games.

(** * Properties *)

(** ** Results and loops *)

Lemma bind_Ok (A B : Type) (c : result A) (k : A -> result B) (v : B) :
  bind c k = Ok v -> exists a, c = Ok a /\ k a = Ok v.
Proof.
  destruct c as [a | e]; simpl; intros H.
  - exists a. split; [reflexivity | exact H].
  - discriminate H.
Qed.

Ltac bind_inv H :=
  let a := fresh "a" in
  let Ha := fresh "Ha" in
  apply bind_Ok in H; destruct H as (a & Ha & H).

(** A loop whose body never raises does not raise. *)
Lemma for_in_total (A R : Type) (l : list A) (body : A -> result (option R)) :
  (forall x, In x l -> exists r, body x = Ok r) ->
  exists r, for_in l body = Ok r.
Proof.
  induction l as [| x l IH]; intros Hbody; simpl.
  - exists None. reflexivity.
  - destruct (Hbody x (or_introl eq_refl)) as [r Hr]. rewrite Hr. simpl.
    destruct r as [v |].
    + exists (Some v). reflexivity.
    + apply IH. intros y Hy. apply Hbody. right. exact Hy.
Qed.

(** A loop returns [v] exactly when its body returns [v] at some item and
    goes on at every item before it. *)
Lemma for_in_returns (A R : Type) (l : list A) (body : A -> result (option R))
    (v : R) :
  for_in l body = Ok (Some v) <->
  exists (i : nat) (x : A),
    nth_error l i = Some x /\ body x = Ok (Some v) /\
    forall (j : nat) (y : A),
      (j < i)%nat -> nth_error l j = Some y -> body y = Ok None.
Proof.
  induction l as [| x l IH]; simpl.
  - split.
    + discriminate.
    + intros (i & y & Hy & _). destruct i; discriminate Hy.
  - split.
    + intros H. destruct (body x) as [[w |] | e] eqn:Hx; simpl in H.
      * injection H as ->. exists O, x. repeat split; auto.
        intros j y Hj. lia.
      * apply IH in H. destruct H as (i & y & Hy & Hv & Hbefore).
        exists (S i), y. repeat split; auto.
        intros [| j] z Hj Hz; simpl in Hz.
        -- injection Hz as <-. exact Hx.
        -- apply (Hbefore j); [lia | exact Hz].
      * discriminate H.
    + intros (i & y & Hy & Hv & Hbefore). destruct i as [| i]; simpl in Hy.
      * injection Hy as ->. rewrite Hv. reflexivity.
      * rewrite (Hbefore O x); [| lia | reflexivity]. simpl.
        apply IH. exists i, y. repeat split; auto.
        intros j z Hj Hz. apply (Hbefore (S j)); [lia | exact Hz].
Qed.

(** ** Slices *)

(** [l[1::2][k]] is [l[2k+1]]. *)
Lemma odd_items_nth (A : Type) (l : list A) (k : nat) :
  nth_error (odd_items l) k = nth_error l (2 * k + 1).
Proof.
  revert l. induction k as [| k IH]; intros l.
  - destruct l as [| a [| b l]]; reflexivity.
  - replace (2 * S k + 1)%nat with (S (S (2 * k + 1))) by lia.
    destruct l as [| a [| b l]]; simpl; try reflexivity.
    exact (IH l).
Qed.

Lemma odd_items_In (A : Type) (l : list A) (x : A) :
  In x (odd_items l) -> In x l.
Proof.
  intros H. apply In_nth_error in H. destruct H as [k Hk].
  rewrite odd_items_nth in Hk. apply nth_error_In in Hk. exact Hk.
Qed.

Lemma drop_first_In (A : Type) (l : list A) (x : A) :
  In x (drop_first l) -> In x l.
Proof. destruct l; simpl; tauto. Qed.

Lemma drop_last_In (A : Type) (l : list A) (x : A) :
  In x (drop_last l) -> In x l.
Proof.
  unfold drop_last. induction l as [| a l IH]; simpl; [tauto |].
  destruct l as [| b l]; [simpl; tauto |].
  intros [-> | H]; [tauto | right; apply IH; exact H].
Qed.


(** ** Sorted lists *)

Section Sorted.

Variable A : Type.
Variable R : A -> A -> Prop.

Lemma StronglySorted_app (l1 l2 : list A) :
  StronglySorted R l1 ->
  StronglySorted R l2 ->
  (forall x y, In x l1 -> In y l2 -> R x y) ->
  StronglySorted R (l1 ++ l2).
Proof.
  induction l1 as [| a l1 IH]; simpl; intros H1 H2 H12.
  - exact H2.
  - apply StronglySorted_inv in H1. destruct H1 as [H1 Ha].
    constructor.
    + apply IH; auto.
    + apply Forall_app. split.
      * exact Ha.
      * apply Forall_forall. intros y Hy. apply H12; auto.
Qed.

Lemma StronglySorted_nth (l : list A) (i j : nat) (a b : A) :
  StronglySorted R l ->
  (i < j)%nat ->
  nth_error l i = Some a ->
  nth_error l j = Some b ->
  R a b.
Proof.
  intros Hs. revert i j. induction Hs as [| x l Hs IH Hx]; intros i j Hij Hi Hj.
  - destruct i; discriminate Hi.
  - destruct j as [| j]; [lia |]. simpl in Hj.
    destruct i as [| i]; simpl in Hi.
    + injection Hi as <-. rewrite Forall_forall in Hx. apply Hx.
      apply nth_error_In with j. exact Hj.
    + apply (IH i j); [lia | exact Hi | exact Hj].
Qed.

Lemma StronglySorted_NoDup (l : list A) :
  (forall x, ~ R x x) -> StronglySorted R l -> NoDup l.
Proof.
  intros Hirr Hs. induction Hs as [| x l Hs IH Hx].
  - constructor.
  - constructor; [| exact IH].
    intros Hin. rewrite Forall_forall in Hx. apply (Hirr x). apply Hx. exact Hin.
Qed.

(** Selecting from a sorted list of labelled items keeps the labels sorted. *)
Lemma StronglySorted_selection (B : Type) (sel : A * B -> bool)
    (l : list (A * B)) :
  StronglySorted R (map fst l) ->
  StronglySorted R (map fst (filter sel l)).
Proof.
  induction l as [| x l IH]; simpl; intros Hs.
  - constructor.
  - apply StronglySorted_inv in Hs. destruct Hs as [Hs Hx].
    destruct (sel x); simpl.
    + constructor; [apply IH; exact Hs |].
      rewrite Forall_forall in *. intros y Hy. apply Hx.
      apply in_map_iff in Hy. destruct Hy as (z & <- & Hz).
      apply filter_In in Hz. apply in_map. tauto.
    + apply IH. exact Hs.
Qed.

End Sorted.

(** ** The driver *)

Section Driver.

Context {E : Engine} {U : Util}.

Lemma fires_eq (puzzle : Puzzle) (t : TagKind)
    (d : Puzzle -> result bool) (b : bool) :
  d puzzle = Ok b -> fires puzzle (t, d) = b.
Proof. unfold fires. simpl. intros ->. destruct b; reflexivity. Qed.

Lemma run_inv (puzzle : Puzzle) (l : list (TagKind * (Puzzle -> result bool)))
    (tags out : list TagKind) :
  run puzzle l tags = Ok out ->
  out = tags ++ map fst (filter (fires puzzle) l)
  /\ Forall (returns_normally puzzle) l.
Proof.
  revert tags. induction l as [| [t d] l IH]; simpl; intros tags H.
  - injection H as <-. rewrite app_nil_r. split; [reflexivity | constructor].
  - bind_inv H. apply IH in H. destruct H as [-> Hall]. split.
    + rewrite (fires_eq _ t _ Ha).
      destruct a; simpl; [rewrite <- app_assoc |]; reflexivity.
    + constructor; [exists a; exact Ha | exact Hall].
Qed.

Lemma run_intro (puzzle : Puzzle)
    (l : list (TagKind * (Puzzle -> result bool))) (tags : list TagKind) :
  Forall (returns_normally puzzle) l ->
  run puzzle l tags = Ok (tags ++ map fst (filter (fires puzzle) l)).
Proof.
  intros Hall. revert tags.
  induction Hall as [| [t d] l [b Hb] Hall IH]; simpl; intros tags.
  - rewrite app_nil_r. reflexivity.
  - simpl in Hb. rewrite Hb. simpl. rewrite IH, (fires_eq _ t _ Hb).
    destruct b; simpl; [rewrite <- app_assoc |]; reflexivity.
Qed.

(** [cook] is the run through the catalog, between the mate tag and the
    length tag. *)
Lemma cook_run (puzzle : Puzzle) :
  cook puzzle =
  (tags <- run puzzle catalog (opt_list (mate_in puzzle)) ;;
   Ok (tags ++ [length_category (length (mainline puzzle))])).
Proof.
  unfold cook, catalog, run, truth, interference_either.
  replace (match mate_in puzzle with
           | Some t => [] ++ [t]
           | None => []
           end) with (opt_list (mate_in puzzle))
    by (destruct (mate_in puzzle); reflexivity).
  unfold length_category.
  generalize (length (mainline puzzle) =? 2)%nat,
             (length (mainline puzzle) =? 4)%nat,
             (8 <=? length (mainline puzzle))%nat.
  intros is2 is4 is8.
  repeat match goal with
         | |- bind ?c _ = _ => destruct c; cbn [bind]; [| reflexivity]
         end.
  destruct is2, is4, is8; reflexivity.
Qed.

Lemma cook_inv (puzzle : Puzzle) (tags : list TagKind) :
  cook puzzle = Ok tags ->
  tags = opt_list (mate_in puzzle)
         ++ map fst (filter (fires puzzle) catalog)
         ++ [length_category (length (mainline puzzle))]
  /\ Forall (returns_normally puzzle) catalog.
Proof.
  rewrite cook_run. intros H. bind_inv H. injection H as <-.
  apply run_inv in Ha. destruct Ha as [-> Hall].
  rewrite <- app_assoc. split; [reflexivity | exact Hall].
Qed.

Lemma cook_intro (puzzle : Puzzle) :
  Forall (returns_normally puzzle) catalog ->
  cook puzzle =
  Ok (opt_list (mate_in puzzle)
      ++ map fst (filter (fires puzzle) catalog)
      ++ [length_category (length (mainline puzzle))]).
Proof.
  intros Hall. rewrite cook_run, (run_intro _ Hall). cbn [bind].
  rewrite <- app_assoc. reflexivity.
Qed.

(** A tag of the catalog is in the output exactly when its detector fires. *)
Lemma motif_in_output (puzzle : Puzzle) (tags : list TagKind)
    (t : TagKind) (d : Puzzle -> result bool) :
  cook puzzle = Ok tags ->
  In (t, d) catalog ->
  d puzzle = Ok true ->
  In t tags.
Proof.
  intros Hc Hin Hd. apply cook_inv in Hc. destruct Hc as [-> _].
  apply in_or_app. right. apply in_or_app. left.
  apply in_map_iff. exists (t, d). split; [reflexivity |].
  apply filter_In. split; [exact Hin | apply fires_eq; exact Hd].
Qed.

End Driver.

(** ** Subsequences and ranks *)

Lemma Subseq_refl (A : Type) (l : list A) : Subseq l l.
Proof.
  induction l; [apply Subseq_nil | apply Subseq_take; assumption].
Qed.

Lemma Subseq_nil_l (A : Type) (l : list A) : Subseq [] l.
Proof.
  induction l; [apply Subseq_nil | apply Subseq_skip; assumption].
Qed.

Lemma Subseq_In (A : Type) (l1 l2 : list A) (x : A) :
  Subseq l1 l2 -> In x l1 -> In x l2.
Proof.
  induction 1 as [| y l1 l2 _ IH | y l1 l2 _ IH]; simpl; intros H.
  - exact H.
  - right. apply IH. exact H.
  - destruct H as [H | H]; [left; exact H | right; apply IH; exact H].
Qed.

Lemma Subseq_app (A : Type) (l1 l2 m1 m2 : list A) :
  Subseq l1 l2 -> Subseq m1 m2 -> Subseq (l1 ++ m1) (l2 ++ m2).
Proof.
  induction 1 as [| y l1 l2 _ IH | y l1 l2 _ IH]; simpl; intros Hm.
  - exact Hm.
  - apply Subseq_skip. apply IH. exact Hm.
  - apply Subseq_take. apply IH. exact Hm.
Qed.

Lemma Subseq_singleton (A : Type) (l : list A) (x : A) :
  In x l -> Subseq [x] l.
Proof.
  induction l as [| y l IH]; simpl; intros H; [contradiction |].
  destruct H as [-> | H].
  - apply Subseq_take. apply Subseq_nil_l.
  - apply Subseq_skip. apply IH. exact H.
Qed.

Lemma Subseq_selection (A B : Type) (sel : A * B -> bool) (l : list (A * B)) :
  Subseq (map fst (filter sel l)) (map fst l).
Proof.
  induction l as [| x l IH]; simpl; [apply Subseq_nil |].
  destruct (sel x); simpl;
    [apply Subseq_take | apply Subseq_skip]; exact IH.
Qed.

Lemma Subseq_sorted (A : Type) (R : A -> A -> Prop) (l1 l2 : list A) :
  Subseq l1 l2 -> StronglySorted R l2 -> StronglySorted R l1.
Proof.
  induction 1 as [| y l1 l2 Hsub IH | y l1 l2 Hsub IH]; intros Hs.
  - constructor.
  - apply StronglySorted_inv in Hs. apply IH. tauto.
  - apply StronglySorted_inv in Hs. destruct Hs as [Hs Hy].
    constructor; [apply IH; exact Hs |].
    rewrite Forall_forall in *. intros z Hz. apply Hy.
    eapply Subseq_In; eassumption.
Qed.

Lemma sortedb_sound (order l : list TagKind) :
  sortedb order l = true -> StronglySorted (before order) l.
Proof.
  induction l as [| a l IH]; simpl; intros H; [constructor |].
  apply andb_prop in H. destruct H as [Ha Hl].
  constructor; [apply IH; exact Hl |].
  rewrite forallb_forall in Ha. apply Forall_forall. intros b Hb.
  apply Nat.ltb_lt. apply Ha. exact Hb.
Qed.

Lemma listed_In (order : list TagKind) (t : TagKind) :
  listed order t = true <-> In t order.
Proof.
  unfold listed. rewrite existsb_exists. split.
  - intros (x & Hx & Heq). apply String.eqb_eq in Heq. subst. exact Hx.
  - intros H. exists t. split; [exact H | apply String.eqb_refl].
Qed.

Lemma rank_app (l1 l2 : list TagKind) (t : TagKind) :
  rank (l1 ++ l2) t =
  if listed l1 t then rank l1 t else (length l1 + rank l2 t)%nat.
Proof.
  induction l1 as [| x l1 IH]; simpl; [reflexivity |].
  rewrite (String.eqb_sym t x).
  destruct (String.eqb x t); simpl; [reflexivity |].
  rewrite IH. destruct (listed l1 t); reflexivity.
Qed.

Lemma evaluation_order_sorted :
  StronglySorted (before evaluation_order) evaluation_order.
Proof. apply sortedb_sound. reflexivity. Qed.

Lemma before_irreflexive (order : list TagKind) (t : TagKind) :
  ~ before order t t.
Proof. unfold before. lia. Qed.

(** Among motif tags, the order of evaluation is the order of the catalog. *)
Lemma before_motif (a b : TagKind) :
  listed motif_order a = true ->
  listed motif_order b = true ->
  before evaluation_order a b ->
  before motif_order a b.
Proof.
  unfold before, evaluation_order. intros Ha Hb.
  assert (Hm : forall t, listed motif_order t = true ->
                         listed mate_tags t = false).
  { intros t Ht. apply listed_In in Ht. simpl in Ht.
    repeat (destruct Ht as [<- | Ht]; [reflexivity |]). contradiction. }
  rewrite !rank_app, (Hm a Ha), (Hm b Hb), Ha, Hb. lia.
Qed.

Lemma catalog_tags {E : Engine} {U : Util} : map fst catalog = motif_order.
Proof. reflexivity. Qed.

Lemma length_category_listed (n : nat) : In (length_category n) length_tags.
Proof.
  unfold length_category, length_tags.
  destruct (n =? 2)%nat; [simpl; tauto |].
  destruct (n =? 4)%nat; [simpl; tauto |].
  destruct (8 <=? n)%nat; simpl; tauto.
Qed.

Ltac apart H1 H2 :=
  apply listed_In in H2; simpl in H1;
  repeat (destruct H1 as [<- | H1]; [vm_compute in H2; discriminate H2 |]);
  exact H1.

Lemma mate_not_motif (t : TagKind) :
  In t mate_tags -> In t motif_order -> False.
Proof. intros H1 H2. apart H1 H2. Qed.

Lemma length_not_motif (t : TagKind) :
  In t length_tags -> In t motif_order -> False.
Proof. intros H1 H2. apart H1 H2. Qed.

Lemma mate_not_length (t : TagKind) :
  In t mate_tags -> In t length_tags -> False.
Proof. intros H1 H2. apart H1 H2. Qed.

Section Output.

Context {E : Engine} {U : Util}.

Lemma mate_in_listed (puzzle : Puzzle) (t : TagKind) :
  mate_in puzzle = Some t -> In t mate_tags.
Proof.
  unfold mate_in, mate_tags.
  destruct (negb _); [discriminate |].
  repeat match goal with
         | |- context [if ?c then _ else _] => destruct c
         end;
    intros H; injection H as <-; simpl; tauto.
Qed.

(** The output of [cook] is a subsequence of the order of evaluation. *)
Lemma cook_subseq (puzzle : Puzzle) (tags : list TagKind) :
  cook puzzle = Ok tags -> Subseq tags evaluation_order.
Proof.
  intros H. apply cook_inv in H. destruct H as [-> _].
  unfold evaluation_order. apply Subseq_app; [| apply Subseq_app].
  - destruct (mate_in puzzle) as [t |] eqn:Hm; simpl.
    + apply Subseq_singleton. eapply mate_in_listed; eassumption.
    + apply Subseq_nil_l.
  - rewrite <- catalog_tags. apply Subseq_selection.
  - apply Subseq_singleton. apply length_category_listed.
Qed.

Lemma cook_sorted (puzzle : Puzzle) (tags : list TagKind) :
  cook puzzle = Ok tags -> StronglySorted (before evaluation_order) tags.
Proof.
  intros H. eapply Subseq_sorted.
  - eapply cook_subseq; eassumption.
  - apply evaluation_order_sorted.
Qed.

Lemma cook_NoDup (puzzle : Puzzle) (tags : list TagKind) :
  cook puzzle = Ok tags -> NoDup tags.
Proof.
  intros H. apply StronglySorted_NoDup with (R := before evaluation_order).
  - apply before_irreflexive.
  - eapply cook_sorted; eassumption.
Qed.

(** A motif tag of the output comes from a detector that fired. *)
Lemma motif_from_detector (puzzle : Puzzle) (tags : list TagKind)
    (t : TagKind) :
  cook puzzle = Ok tags ->
  In t tags ->
  In t motif_order ->
  exists d, In (t, d) catalog /\ d puzzle = Ok true.
Proof.
  intros Hc Hin Hm. apply cook_inv in Hc. destruct Hc as [-> _].
  apply in_app_or in Hin. destruct Hin as [Hin | Hin].
  - exfalso. destruct (mate_in puzzle) as [m |] eqn:Hmate; simpl in Hin;
      [| contradiction].
    destruct Hin as [<- | []]. apply mate_in_listed in Hmate.
    eapply mate_not_motif; eassumption.
  - apply in_app_or in Hin. destruct Hin as [Hin | Hin].
    + apply in_map_iff in Hin. destruct Hin as ([t' d] & Heq & Hf).
      simpl in Heq. subst t'. apply filter_In in Hf. destruct Hf as [Hf Hfire].
      exists d. split; [exact Hf |]. unfold fires in Hfire. simpl in Hfire.
      destruct (d puzzle) as [[|] | e]; try discriminate Hfire. reflexivity.
    + exfalso. destruct Hin as [<- | []].
      eapply length_not_motif; [apply length_category_listed | eassumption].
Qed.

End Output.

Lemma motif_order_NoDup : NoDup motif_order.
Proof.
  apply StronglySorted_NoDup with (R := before motif_order).
  - apply before_irreflexive.
  - apply sortedb_sound. reflexivity.
Qed.

Lemma keyed_functional (A B : Type) (l : list (A * B)) (k : A) (v w : B) :
  NoDup (map fst l) -> In (k, v) l -> In (k, w) l -> v = w.
Proof.
  induction l as [| [k' u] l IH]; simpl; intros Hnd Hv Hw; [contradiction |].
  apply NoDup_cons_iff in Hnd. destruct Hnd as [Hk Hnd].
  destruct Hv as [Hv | Hv], Hw as [Hw | Hw].
  - congruence.
  - exfalso. apply Hk. injection Hv as -> _.
    change k with (fst (k, w)). apply in_map. exact Hw.
  - exfalso. apply Hk. injection Hw as -> _.
    change k with (fst (k, v)). apply in_map. exact Hv.
  - apply IH; assumption.
Qed.

Ltac in_catalog :=
  unfold catalog; cbn [In]; repeat (first [left; reflexivity | right]).

Section DriverClaims.

Context {E : Engine} {U : Util}.

(** The detector behind a motif tag of the output fired. *)
Lemma tag_means_fired (puzzle : Puzzle) (tags : list TagKind)
    (t : TagKind) (d : Puzzle -> result bool) :
  cook puzzle = Ok tags ->
  In (t, d) catalog ->
  In t tags ->
  d puzzle = Ok true.
Proof.
  intros Hc Hd Hin.
  assert (Hm : In t motif_order).
  { rewrite <- catalog_tags. change t with (fst (t, d)). apply in_map.
    exact Hd. }
  destruct (motif_from_detector _ Hc Hin Hm) as (d' & Hd' & Hfire).
  rewrite (keyed_functional catalog t d d'); auto.
  rewrite catalog_tags. apply motif_order_NoDup.
Qed.

(** The shape of the output: the mate tag if any, motif tags, the length
    tag. *)
Lemma cook_shape (puzzle : Puzzle) (tags : list TagKind) :
  cook puzzle = Ok tags ->
  exists sel,
    tags = opt_list (mate_in puzzle) ++ sel
           ++ [length_category (length (mainline puzzle))]
    /\ forall t, In t sel -> In t motif_order.
Proof.
  intros Hc. apply cook_inv in Hc. destruct Hc as [-> _].
  exists (map fst (filter (fires puzzle) catalog)). split; [reflexivity |].
  intros t Ht. rewrite <- catalog_tags.
  apply in_map_iff in Ht. destruct Ht as (x & <- & Hx).
  apply in_map. apply filter_In in Hx. tauto.
Qed.

(** C1 (as amended).  The tags of [cook] come in the order of evaluation of
    [cook] itself: a mate tag, when there is one, is the first element; the
    length tag is the last element; and any two motif tags stand in the
    order in which [cook] asks their detectors, which is [motif_order]
    (attraction, deflection, advancedPawn, doubleCheck, quietMove,
    defensiveMove, sacrifice, fork, ...), not the order of the table of
    section 4.4. *)
Theorem cook_order (puzzle : Puzzle) (tags : list TagKind) :
  cook puzzle = Ok tags ->
  (forall t, In t mate_tags -> In t tags -> hd_error tags = Some t)
  /\ (exists body,
        tags = body ++ [length_category (length (mainline puzzle))])
  /\ in_relative_order motif_order tags.
Proof.
  intros Hc. destruct (cook_shape _ Hc) as (sel & Heq & Hsel).
  split; [| split].
  - intros t Hmate Hin. rewrite Heq in Hin |- *.
    destruct (mate_in puzzle) as [m |] eqn:Hm; simpl in *.
    + destruct Hin as [-> | Hin]; [reflexivity |]. exfalso.
      apply in_app_or in Hin. destruct Hin as [Hin | [<- | []]].
      * apply (mate_not_motif Hmate). apply Hsel. exact Hin.
      * apply (mate_not_length Hmate). apply length_category_listed.
    + exfalso. apply in_app_or in Hin. destruct Hin as [Hin | [<- | []]].
      * apply (mate_not_motif Hmate). apply Hsel. exact Hin.
      * apply (mate_not_length Hmate). apply length_category_listed.
  - rewrite Heq, app_assoc. eauto.
  - intros i j a b Hij Ha Hb Hla Hlb. apply before_motif; auto.
    eapply StronglySorted_nth; [eapply cook_sorted | | |]; eassumption.
Qed.


(** C3.  [mate_in] answers a tag exactly when the final position is
    checkmate; with [k] the number of plies halved, the tag is mateIn1 to
    mateIn4 for [k] from 1 to 4 and mateIn5+ for [k] at least 5; and the
    output of [cook] has no mate tag when the final position is not
    checkmate. *)
Theorem mate_in_consistent (puzzle : Puzzle) :
  let final := node_board (game_end (game puzzle)) in
  let k := (length (mainline puzzle) / 2)%nat in
  (mate_in puzzle <> None <-> is_checkmate final = true)
  /\ (is_checkmate final = true ->
      (k = 1%nat -> mate_in puzzle = Some "mateIn1")
      /\ (k = 2%nat -> mate_in puzzle = Some "mateIn2")
      /\ (k = 3%nat -> mate_in puzzle = Some "mateIn3")
      /\ (k = 4%nat -> mate_in puzzle = Some "mateIn4")
      /\ ((5 <= k)%nat -> mate_in puzzle = Some "mateIn5+"))
  /\ (is_checkmate final = false ->
      mate_in puzzle = None
      /\ forall tags, cook puzzle = Ok tags ->
                      forall t, In t mate_tags -> ~ In t tags).
Proof.
  intros final k. unfold mate_in. fold final. fold k.
  destruct (is_checkmate final) eqn:Hmate; simpl.
  - split; [| split].
    + split; [reflexivity |]. intros _.
      repeat match goal with
             | |- context [if ?c then _ else _] => destruct c
             end; discriminate.
    + intros _. repeat split; intros Hk.
      * rewrite Hk. reflexivity.
      * rewrite Hk. reflexivity.
      * rewrite Hk. reflexivity.
      * rewrite Hk. reflexivity.
      * destruct (Nat.eqb_spec k 1); [lia |].
        destruct (Nat.eqb_spec k 2); [lia |].
        destruct (Nat.eqb_spec k 3); [lia |].
        destruct (Nat.eqb_spec k 4); [lia | reflexivity].
    + discriminate.
  - split; [| split].
    + split; [intros H; exfalso; apply H; reflexivity | discriminate].
    + discriminate.
    + intros _. split; [reflexivity |].
      intros tags Hc t Hm Hin.
      destruct (cook_shape _ Hc) as (sel & Heq & Hsel).
      unfold mate_in in Heq. fold final in Heq. rewrite Hmate in Heq.
      simpl in Heq. rewrite Heq in Hin.
      apply in_app_or in Hin. destruct Hin as [Hin | [<- | []]].
      * apply (mate_not_motif Hm). apply Hsel. exact Hin.
      * apply (mate_not_length Hm). apply length_category_listed.
Qed.

(** C9.  No tag occurs twice in the output of [cook]; the tag interference
    occurs once when the self-interference detector or the interference
    detector fires, also when both do. *)
Theorem cook_tags_distinct (puzzle : Puzzle) (tags : list TagKind) :
  cook puzzle = Ok tags ->
  NoDup tags
  /\ (self_interference puzzle = Ok true \/ interference puzzle = Ok true ->
      count_occ string_dec tags "interference" = 1%nat).
Proof.
  intros Hc. pose proof (cook_NoDup _ Hc) as Hnd. split; [exact Hnd |].
  intros Hfire. apply NoDup_count_occ'; [exact Hnd |].
  apply motif_in_output with (puzzle := puzzle) (d := interference_either);
    [exact Hc | in_catalog |].
  pose proof (cook_inv _ Hc) as [_ Hall]. rewrite Forall_forall in Hall.
  destruct (Hall ("interference", interference_either)) as [b Hb];
    [in_catalog |].
  simpl in Hb. unfold interference_either in *.
  destruct (self_interference puzzle) as [[|] | e]; simpl in *.
  - reflexivity.
  - destruct Hfire as [Hfire | Hfire]; [discriminate Hfire | exact Hfire].
  - discriminate Hb.
Qed.


End DriverClaims.

(** ** Loops that decide on the first item of a kind *)

Lemma for_in_ext (A R : Type) (l : list A)
    (body body' : A -> result (option R)) :
  (forall x, In x l -> body x = body' x) ->
  for_in l body = for_in l body'.
Proof.
  induction l as [| x l IH]; simpl; intros H; [reflexivity |].
  rewrite (H x (or_introl eq_refl)), IH; [reflexivity |].
  intros y Hy. apply H. right. exact Hy.
Qed.

(** The loop [for x in l: if c(x): return v(x)] returns true exactly when the
    first item that passes [c] has a true [v]. *)
Lemma for_in_decided (A : Type) (l : list A) (c v : A -> bool) :
  for_in l (fun x => if c x then return_ (v x) else continue) = Ok (Some true)
  <->
  exists (i : nat) (x : A),
    nth_error l i = Some x /\ c x = true /\ v x = true /\
    forall (j : nat) (y : A),
      (j < i)%nat -> nth_error l j = Some y -> c y = false.
Proof.
  rewrite for_in_returns. split.
  - intros (i & x & Hx & Hv & Hbefore). exists i, x.
    split; [exact Hx |]. unfold return_, continue in *.
    destruct (c x); [| discriminate Hv]. injection Hv as Hv.
    repeat split; auto.
    intros j y Hj Hy. specialize (Hbefore j y Hj Hy).
    destruct (c y); [discriminate Hbefore | reflexivity].
  - intros (i & x & Hx & Hc & Hv & Hbefore). exists i, x.
    split; [exact Hx |]. rewrite Hc, Hv. split; [reflexivity |].
    intros j y Hj Hy. rewrite (Hbefore j y Hj Hy). reflexivity.
Qed.

(** The loop [for x in l: if stop(x): return False; if go(x): return True]
    returns true exactly when some item passes [go] and neither it nor an
    item before it passes [stop]. *)
Lemma for_in_first (A : Type) (l : list A) (stop go : A -> bool) :
  for_in l (fun x => if stop x then return_ false
                     else if go x then return_ true else continue)
  = Ok (Some true)
  <->
  exists (i : nat) (x : A),
    nth_error l i = Some x /\ go x = true /\ stop x = false /\
    forall (j : nat) (y : A),
      (j < i)%nat -> nth_error l j = Some y -> stop y = false.
Proof.
  induction l as [| a l IH]; simpl.
  - split; [discriminate |].
    intros (i & x & Hx & _). destruct i; discriminate Hx.
  - destruct (stop a) eqn:Hstop; simpl.
    + split; [discriminate |].
      intros (i & x & Hx & Hgo & Hsx & Hbefore). exfalso.
      destruct i as [| i]; simpl in Hx.
      * injection Hx as <-. congruence.
      * specialize (Hbefore O a (Nat.lt_0_succ i) eq_refl). congruence.
    + destruct (go a) eqn:Hgo; simpl.
      * split; [| reflexivity]. intros _. exists O, a.
        repeat split; auto. intros j y Hj. lia.
      * rewrite IH. split.
        -- intros (i & x & Hx & Hgx & Hsx & Hbefore). exists (S i), x.
           repeat split; auto.
           intros [| j] y Hj Hy; simpl in Hy.
           ++ injection Hy as <-. exact Hstop.
           ++ apply (Hbefore j); [lia | exact Hy].
        -- intros (i & x & Hx & Hgx & Hsx & Hbefore).
           destruct i as [| i]; simpl in Hx.
           ++ injection Hx as <-. congruence.
           ++ exists i, x. repeat split; auto.
              intros j y Hj Hy. apply (Hbefore (S j)); [lia | exact Hy].
Qed.

(** The loop [for x in l: if f(x): return True]. *)
Lemma for_in_exists (A : Type) (l : list A) (f : A -> bool) :
  for_in l (fun x => if f x then return_ true else continue)
  = Ok (if existsb f l then Some true else None).
Proof.
  induction l as [| a l IH]; simpl; [reflexivity |].
  destruct (f a); simpl; [reflexivity | exact IH].
Qed.

Lemma drop_first_odd_nth (A : Type) (l : list A) (k : nat) :
  nth_error (drop_first (odd_items l)) k = nth_error l (2 * k + 3).
Proof.
  unfold drop_first.
  replace (nth_error (tl (odd_items l)) k)
    with (nth_error (odd_items l) (S k))
    by (destruct (odd_items l); [destruct k |]; reflexivity).
  rewrite odd_items_nth. f_equal. lia.
Qed.

(** ** The nodes of the mainline *)

Section Mainline.

Context {E : Engine}.

Lemma mainline_node (puzzle : Puzzle) (n : GameNode) :
  In n (mainline puzzle) ->
  exists i mb,
    n = mkNode (game puzzle) (S i)
    /\ nth_error (plies (game puzzle)) i = Some mb.
Proof.
  unfold mainline, game_mainline. intros H.
  apply in_map_iff in H. destruct H as (k & <- & Hk).
  apply in_seq in Hk. destruct k as [| i]; [lia |].
  destruct (nth_error (plies (game puzzle)) i) as [mb |] eqn:Hnth.
  - exists i, mb. split; [reflexivity | exact Hnth].
  - apply nth_error_None in Hnth. lia.
Qed.

Lemma mainline_move (puzzle : Puzzle) (n : GameNode) :
  In n (mainline puzzle) -> exists m, node_move n = Some m.
Proof.
  intros H. destruct (mainline_node _ _ H) as (i & [m b] & -> & Hnth).
  exists m. unfold node_move. simpl. rewrite Hnth. reflexivity.
Qed.

Lemma mainline_parent (puzzle : Puzzle) (n : GameNode) :
  In n (mainline puzzle) -> exists par, node_parent n = Some par.
Proof.
  intros H. destruct (mainline_node _ _ H) as (i & mb & -> & _).
  eexists. reflexivity.
Qed.

Lemma mainline_length (puzzle : Puzzle) :
  length (mainline puzzle) = length (plies (game puzzle)).
Proof. unfold mainline, game_mainline. rewrite length_map, length_seq. reflexivity. Qed.

End Mainline.

(** ** The detectors *)

Section DetectorClaims.

Context {E : Engine} {U : Util}.

(** *** [sacrifice] *)

(** C5 (as amended).  [sacrifice] answers true exactly when the material
    balance of pov, at some move of pov after the first one, is at least 2
    under the balance of the first position of the mainline; what the
    balance did in between plays no part.  It returns normally on every
    mainline that is not empty. *)
Theorem sacrifice_spec (puzzle : Puzzle) :
  (sacrifice puzzle = Ok true <-> exists j, dropped_at (balances puzzle) j)
  /\ (mainline puzzle <> [] -> exists b, sacrifice puzzle = Ok b).
Proof.
  unfold sacrifice. fold (balances puzzle).
  assert (Hnil : mainline puzzle <> [] -> balances puzzle <> []).
  { unfold balances. destruct (mainline puzzle); [tauto | discriminate]. }
  destruct (balances puzzle) as [| d0 rest] eqn:Hbal.
  - split.
    + split; [discriminate |].
      intros (j & k & d0 & d & _ & H0 & _). discriminate H0.
    + intros H. exfalso. apply (Hnil H). reflexivity.
  - unfold index. cbn [nth_error bind]. rewrite for_in_exists. split.
    + cbn [bind]. split.
      * destruct (existsb _ _) eqn:Hex; [| discriminate]. intros _.
        apply existsb_exists in Hex. destruct Hex as (d & Hd & Hle).
        apply In_nth_error in Hd. destruct Hd as [k Hk].
        rewrite drop_first_odd_nth in Hk.
        exists (2 * k + 3)%nat, k, d0, d. repeat split; auto.
        apply Z.leb_le. exact Hle.
      * intros (j & k & d0' & d & -> & H0 & Hd & Hle).
        injection H0 as <-.
        rewrite <- drop_first_odd_nth in Hd. apply nth_error_In in Hd.
        assert (Hex : existsb (fun d => d - d0 <=? -2)
                        (drop_first (odd_items (d0 :: rest))) = true).
        { apply existsb_exists. exists d. split; [exact Hd |].
          apply Z.leb_le. exact Hle. }
        rewrite Hex. reflexivity.
    + intros _. cbn [bind]. eexists. reflexivity.
Qed.

(** *** [fork] *)

Lemma fork_count_spec (node : GameNode) (l : list (Piece * Square)) (nb : Z) :
  pt_eqb (moved_piece_type node) KING = false ->
  fork_count node (node_board node) l nb
  = Ok (nb + Z.of_nat (length (filter (fork_target node) l))).
Proof.
  intros Hk. revert nb.
  induction l as [| [piece square] l IH]; intros nb; cbn [fork_count].
  - simpl. f_equal. lia.
  - cbn [filter].
    remember (fork_target node (piece, square)) as ft eqn:Hft.
    unfold fork_target in Hft.
    destruct (pt_eqb (piece_type piece) PAWN) eqn:Hp; cbn [negb andb] in Hft.
    + subst ft. apply IH.
    + destruct (pt_eqb (piece_type piece) KING) eqn:Hpk; cbn [orb bind] in *.
      * subst ft. rewrite IH. cbn [length]. f_equal. lia.
      * destruct (values (piece_type piece)) as [v | e] eqn:Hv;
          [| destruct (piece_type piece); discriminate].
        destruct (values (moved_piece_type node)) as [w | e] eqn:Hw;
          [| destruct (moved_piece_type node); discriminate].
        cbn [bind].
        destruct (w <? v); cbn [orb bind] in *.
        -- subst ft. rewrite IH. cbn [length]. f_equal. lia.
        -- subst ft.
           destruct (is_hanging (node_board node) piece square);
             rewrite IH; cbn [length]; f_equal; lia.
Qed.

(** What the body of the loop of [fork] does on a node of the mainline. *)
Lemma fork_body (puzzle : Puzzle) (node : GameNode) :
  In node (mainline puzzle) ->
  (if negb (pt_eqb (moved_piece_type node) KING) then
     let board := node_board node in
     if is_checkmate board then return_ false
     else
       m <- move_of node ;;
       nb <- fork_count node board
               (attacked_opponent_squares board (to_square m) (pov puzzle))
               0 ;;
       if 1 <? nb then return_ true else continue
   else continue)
  = (if is_mating_move node then return_ false
     else if is_fork_move puzzle node then return_ true else continue).
Proof.
  intros Hin. destruct (mainline_move _ _ Hin) as [m Hm].
  unfold is_mating_move, is_fork_move, fork_targets, move_of.
  rewrite Hm. cbn [attr].
  destruct (pt_eqb (moved_piece_type node) KING) eqn:Hk; cbn [negb andb];
    [reflexivity |].
  cbv zeta. destruct (is_checkmate (node_board node)); cbn [negb andb];
    [reflexivity |].
  cbn [bind]. rewrite (fork_count_spec _ _ _ Hk). cbn [bind].
  set (n := length _).
  replace (1 <? 0 + Z.of_nat n) with (2 <=? n)%nat; [reflexivity |].
  destruct (Nat.leb_spec 2 n), (Z.ltb_spec 1 (0 + Z.of_nat n));
    try reflexivity; lia.
Qed.

Lemma fork_loop (puzzle : Puzzle) :
  fork puzzle =
  (r <- for_in (fork_examined puzzle)
          (fun node =>
             if is_mating_move node then return_ false
             else if is_fork_move puzzle node then return_ true
                  else continue) ;;
   Ok (or_return false r)).
Proof.
  unfold fork, fork_examined. f_equal. apply for_in_ext.
  intros node Hin. apply fork_body.
  apply odd_items_In. apply drop_last_In. exact Hin.
Qed.

Lemma fork_true_iff (puzzle : Puzzle) :
  fork puzzle = Ok true <-> fork_found puzzle.
Proof.
  rewrite fork_loop. unfold fork_found.
  pose proof (for_in_first (fork_examined puzzle) is_mating_move
                (is_fork_move puzzle)) as Hfirst.
  split.
  - intros H. bind_inv H.
    destruct a as [[|] |]; try discriminate H.
    apply Hfirst in Ha. destruct Ha as (i & x & Hx & Hgo & _ & Hbefore).
    exists i, x. auto.
  - intros (i0 & x0 & Hx0 & Hgo0 & Hbefore0).
    assert (Hmin : exists i x,
               nth_error (fork_examined puzzle) i = Some x
               /\ is_fork_move puzzle x = true
               /\ is_mating_move x = false
               /\ forall j y, (j < i)%nat ->
                    nth_error (fork_examined puzzle) j = Some y ->
                    is_mating_move y = false).
    { exists i0, x0. repeat split; auto.
      unfold is_fork_move in Hgo0. unfold is_mating_move.
      destruct (pt_eqb (moved_piece_type x0) KING); [reflexivity |].
      destruct (is_checkmate (node_board x0)); [discriminate Hgo0 |].
      reflexivity. }
    apply Hfirst in Hmin. rewrite Hmin. reflexivity.
Qed.

(** C6 (as amended).  [fork] answers true exactly when some move of pov
    other than the last one does not move the king, attacks at least two
    pieces of the opponent that are not pawns and are each a king, or worth
    more than the moved piece, or hanging, and does not give checkmate
    (and no move of pov before it, by a piece other than the king, gives
    checkmate).  When that holds, the output of [cook] has the tag fork. *)
Theorem fork_spec (puzzle : Puzzle) :
  (fork puzzle = Ok true <-> fork_found puzzle)
  /\ (forall tags, cook puzzle = Ok tags -> fork_found puzzle ->
                   In "fork" tags).
Proof.
  split; [apply fork_true_iff |].
  intros tags Hc Hfound.
  apply motif_in_output with (puzzle := puzzle) (d := fork);
    [exact Hc | in_catalog | apply fork_true_iff; exact Hfound].
Qed.

(** *** [quiet_move] *)

Lemma quiet_body (puzzle : Puzzle) (node : GameNode) :
  In node (mainline puzzle) ->
  (if negb (Bool.eqb (node_turn node) (pov puzzle))
      && negb (node_is_end node) then
     if negb (SS.nonempty (checkers (node_board node))) then
       par <- parent_of node ;;
       if negb (SS.nonempty (checkers (node_board par))) then
         if negb (is_capture node) then
           m <- move_of node ;;
           match attacked_opponent_pieces (node_board node)
                   (to_square m) (pov puzzle) with
           | [] => return_ true
           | _ :: _ => return_ false
           end
         else continue
       else continue
     else continue
   else continue)
  = (if is_quiet_candidate puzzle node
     then return_ (attacks_nothing puzzle node) else continue).
Proof.
  intros Hin. destruct (mainline_move _ _ Hin) as [m Hm].
  destruct (mainline_parent _ _ Hin) as [par Hpar].
  unfold is_quiet_candidate, is_inner_pov_move, without_check,
    attacks_nothing, move_of, parent_of.
  rewrite Hm, Hpar. cbn [attr].
  destruct (negb (Bool.eqb (node_turn node) (pov puzzle))
            && negb (node_is_end node)); cbn [andb]; [| reflexivity].
  destruct (negb (SS.nonempty (checkers (node_board node)))); cbn [andb bind];
    [| reflexivity].
  destruct (negb (SS.nonempty (checkers (node_board par)))); cbn [andb];
    [| reflexivity].
  destruct (negb (is_capture node)); cbn [bind]; [| reflexivity].
  destruct (attacked_opponent_pieces _ _ _); reflexivity.
Qed.

(** [quiet_move] never raises. *)
Lemma quiet_move_loop (puzzle : Puzzle) :
  quiet_move puzzle =
  (r <- for_in (mainline puzzle)
          (fun node =>
             if is_quiet_candidate puzzle node
             then return_ (attacks_nothing puzzle node) else continue) ;;
   Ok (or_return false r)).
Proof.
  unfold quiet_move. f_equal. apply for_in_ext.
  intros node Hin. apply quiet_body. exact Hin.
Qed.

(** C7 (as amended).  [quiet_move] is decided by the first move of pov, not
    the last move of the puzzle, that is played with neither side in check
    and is not a capture: it answers true exactly when there is such a move
    and that move attacks no piece of the opponent from its destination.
    Moves of pov that capture or come with a check are passed over. *)
Theorem quiet_move_spec (puzzle : Puzzle) :
  quiet_move puzzle = Ok true <-> quiet_found puzzle.
Proof.
  rewrite quiet_move_loop. unfold quiet_found.
  rewrite <- for_in_decided. split.
  - intros H. bind_inv H. destruct a as [[|] |]; try discriminate H.
    exact Ha.
  - intros H. rewrite H. reflexivity.
Qed.

(** *** [en_passant] *)

Lemma en_passant_body (puzzle : Puzzle) (node : GameNode) :
  In node (mainline puzzle) ->
  (if pt_eqb (moved_piece_type node) PAWN then
     m <- move_of node ;;
     if negb (square_file (from_square m) =? square_file (to_square m)) then
       par <- parent_of node ;;
       if negb (is_some (piece_at (node_board par) (to_square m)))
       then return_ true
       else continue
     else continue
   else continue)
  = (if en_passant_signature node then return_ true else continue).
Proof.
  intros Hin. destruct (mainline_move _ _ Hin) as [m Hm].
  destruct (mainline_parent _ _ Hin) as [par Hpar].
  unfold en_passant_signature, move_of, parent_of.
  rewrite Hm, Hpar. cbn [attr].
  destruct (pt_eqb (moved_piece_type node) PAWN); cbn [andb bind];
    [| reflexivity].
  destruct (negb (square_file (from_square m) =? square_file (to_square m)));
    cbn [andb bind]; [| reflexivity].
  destruct (negb (is_some (piece_at (node_board par) (to_square m))));
    reflexivity.
Qed.

(** [en_passant] never raises: it answers [True] when a move of pov has the
    signature, and [None] otherwise. *)
Lemma en_passant_value (puzzle : Puzzle) :
  en_passant puzzle =
  Ok (if existsb en_passant_signature (odd_items (mainline puzzle))
      then Some true else None).
Proof.
  unfold en_passant. rewrite <- for_in_exists. apply for_in_ext.
  intros node Hin. apply en_passant_body with (puzzle := puzzle).
  apply odd_items_In. exact Hin.
Qed.

(** C8 (as amended).  The output of [cook] has the tag enPassant exactly
    when some move of pov (the moves [mainline[1::2]]) is a pawn move that
    changes file and lands on a square that was empty.  Moves of the
    opponent are not looked at: when no move of pov has this signature the
    output has no tag enPassant, whatever the opponent played. *)
Theorem en_passant_tagged (puzzle : Puzzle) (tags : list TagKind) :
  cook puzzle = Ok tags ->
  (In "enPassant" tags <->
   exists node, In node (odd_items (mainline puzzle))
                /\ en_passant_signature node = true)
  /\ (existsb en_passant_signature (odd_items (mainline puzzle)) = false ->
      ~ In "enPassant" tags).
Proof.
  intros Hc.
  assert (Hiff : In "enPassant" tags <->
                 existsb en_passant_signature (odd_items (mainline puzzle))
                 = true).
  { split.
    - intros Hin.
      assert (H : truth en_passant puzzle = Ok true).
      { apply tag_means_fired with (tags := tags) (t := "enPassant");
          [exact Hc | in_catalog | exact Hin]. }
      unfold truth in H. rewrite en_passant_value in H. cbn [bind] in H.
      destruct (existsb _ _); [reflexivity | discriminate H].
    - intros Hex.
      apply motif_in_output with (puzzle := puzzle) (d := truth en_passant);
        [exact Hc | in_catalog |].
      unfold truth. rewrite en_passant_value, Hex. reflexivity. }
  split.
  - rewrite Hiff. apply existsb_exists.
  - intros Hnone Hin. apply Hiff in Hin. congruence.
Qed.

(** *** [hanging_piece] *)

(** With two plies, or with four and more, [hanging_piece] returns. *)
Lemma hanging_piece_returns (puzzle : Puzzle) :
  length (mainline puzzle) = 2%nat \/ (4 <= length (mainline puzzle))%nat ->
  exists b, hanging_piece puzzle = Ok b.
Proof.
  intros Hlen. unfold hanging_piece, index.
  assert (H0 : exists m0, nth_error (mainline puzzle) 0 = Some m0).
  { destruct (nth_error (mainline puzzle) 0) eqn:H; [eauto |].
    apply nth_error_None in H. lia. }
  assert (H1 : exists m1, nth_error (mainline puzzle) 1 = Some m1).
  { destruct (nth_error (mainline puzzle) 1) eqn:H; [eauto |].
    apply nth_error_None in H. lia. }
  destruct H0 as [m0 H0], H1 as [m1 H1]. rewrite H0, H1. cbn [bind].
  destruct (is_capture m0); [eauto |].
  destruct (is_check (node_board m0)); [eauto |].
  destruct (mainline_move puzzle m1) as [mv Hmv];
    [eapply nth_error_In; eassumption |].
  unfold move_of. rewrite Hmv. cbn [attr bind].
  destruct (piece_at (node_board m0) (to_square mv)) as [c |]; [| eauto].
  destruct (negb (pt_eqb (piece_type c) PAWN)); [| eauto].
  destruct (is_hanging (node_board m0) c (to_square mv)); [| eauto].
  destruct (Nat.ltb_spec (length (mainline puzzle)) 3); [eauto |].
  destruct (nth_error (mainline puzzle) 3) as [m3 |] eqn:H3.
  - cbn [bind]. destruct (_ >=? _); eauto.
  - apply nth_error_None in H3. lia.
Qed.

(** With three plies it raises as soon as the first move of pov takes a
    hanging piece that is not a pawn: it reads [mainline[3]]. *)
Lemma hanging_piece_three_plies (puzzle : Puzzle) (m0 m1 : GameNode)
    (mv : Move) (c : Piece) :
  length (mainline puzzle) = 3%nat ->
  nth_error (mainline puzzle) 0 = Some m0 ->
  nth_error (mainline puzzle) 1 = Some m1 ->
  is_capture m0 = false ->
  is_check (node_board m0) = false ->
  node_move m1 = Some mv ->
  piece_at (node_board m0) (to_square mv) = Some c ->
  pt_eqb (piece_type c) PAWN = false ->
  is_hanging (node_board m0) c (to_square mv) = true ->
  hanging_piece puzzle = Raise IndexError.
Proof.
  intros Hlen H0 H1 Hcap Hchk Hmv Hc Hp Hh.
  unfold hanging_piece, index, move_of.
  rewrite H0, H1. cbn [bind]. rewrite Hcap, Hchk, Hmv. cbn [attr bind].
  rewrite Hc, Hp. cbn [negb]. rewrite Hh, Hlen. cbn [Nat.ltb Nat.leb].
  replace (nth_error (mainline puzzle) 3) with (@None GameNode);
    [reflexivity |].
  symmetry. apply nth_error_None. lia.
Qed.

End DetectorClaims.

(** ** The detectors at work on games of standard chess *)

Ltac run := vm_compute; reflexivity.

Ltac not_in H := apply listed_In in H; vm_compute in H; discriminate H.

(** C1, counterexample.  In the game [exchange_then_loss] the output of
    [cook] has quietMove before sacrifice, while the table of section 4.4
    lists sacrifice before quietMove. *)
Lemma cook_order_differs_from_spec_catalog :
  cook Examples.exchange_then_loss
  = Ok ["quietMove"; "defensiveMove"; "sacrifice"; "long"]
  /\ ~ in_relative_order spec_catalog_order
         ["quietMove"; "defensiveMove"; "sacrifice"; "long"].
Proof.
  split; [run |].
  intros H.
  specialize (H 0%nat 2%nat "quietMove" "sacrifice").
  unfold before in H. vm_compute in H.
  assert (H12 : (1 <= 2)%nat) by lia.
  specialize (H H12 eq_refl eq_refl eq_refl eq_refl). lia.
Qed.

(** [cook_order] on the game [exchange_then_loss]. *)
Lemma cook_order_witness :
  cook Examples.exchange_then_loss
  = Ok ["quietMove"; "defensiveMove"; "sacrifice"; "long"]
  /\ ((forall t, In t mate_tags ->
                 In t ["quietMove"; "defensiveMove"; "sacrifice"; "long"] ->
                 hd_error ["quietMove"; "defensiveMove"; "sacrifice"; "long"]
                 = Some t)
      /\ (exists body,
            ["quietMove"; "defensiveMove"; "sacrifice"; "long"]
            = body ++ [length_category
                         (length (mainline Examples.exchange_then_loss))])
      /\ in_relative_order motif_order
           ["quietMove"; "defensiveMove"; "sacrifice"; "long"]).
Proof.
  split; [run |].
  apply (cook_order Examples.exchange_then_loss). run.
Defined.


(** Scholar's mate is a mate in one; the game [two_plies] does not end in
    checkmate and gets no mate tag. *)
Lemma mate_in_examples :
  mate_in Examples.scholars_mate = Some "mateIn1"
  /\ mate_in Examples.two_plies = None
  /\ cook Examples.two_plies = Ok ["hangingPiece"; "oneMove"].
Proof. repeat split; run. Qed.

(** [cook_tags_distinct] on the game [both_lines_shut], where both
    interference detectors fire. *)
Lemma cook_tags_distinct_witness :
  cook Examples.both_lines_shut = Ok ["quietMove"; "interference"; "short"]
  /\ self_interference Examples.both_lines_shut = Ok true
  /\ interference Examples.both_lines_shut = Ok true
  /\ NoDup ["quietMove"; "interference"; "short"]
  /\ count_occ string_dec ["quietMove"; "interference"; "short"]
       "interference" = 1%nat.
Proof.
  split; [run |]. split; [run |]. split; [run |].
  assert (Hc : cook Examples.both_lines_shut
               = Ok ["quietMove"; "interference"; "short"]) by run.
  destruct (cook_tags_distinct Examples.both_lines_shut Hc) as [Hnd Hcount].
  split; [exact Hnd |]. apply Hcount. left. run.
Defined.


(** C4.  On the three plies of [three_plies], where the first move of pov
    takes a hanging queen, [hanging_piece] raises [IndexError], and [cook]
    with it; with one ply less or one ply more it answers true. *)
Theorem hanging_piece_raises_on_three_plies :
  length (mainline Examples.three_plies) = 3%nat
  /\ hanging_piece Examples.three_plies = Raise IndexError
  /\ cook Examples.three_plies = Raise IndexError
  /\ hanging_piece Examples.two_plies = Ok true
  /\ hanging_piece Examples.four_plies = Ok true.
Proof. repeat split; run. Qed.

(** C5, counterexample.  In [exchange_then_loss] the balances of pov are
    5, 5, 2, 5, 0, 0: the balance is back at its initial value at ply 3 and
    5 under it at ply 5.  [sacrifice] answers true, though no move of pov
    shows a drop that was not preceded by a recovery. *)
Lemma sacrifice_ignores_recovery :
  balances Examples.exchange_then_loss = [5; 5; 2; 5; 0; 0]
  /\ sacrifice Examples.exchange_then_loss = Ok true
  /\ ~ (exists j,
          dropped_at (balances Examples.exchange_then_loss) j
          /\ ~ recovered_by (balances Examples.exchange_then_loss) j).
Proof.
  assert (Hbal : balances Examples.exchange_then_loss = [5; 5; 2; 5; 0; 0])
    by run.
  split; [exact Hbal |]. split; [run |].
  rewrite Hbal. intros (j & (k & d0 & d & -> & H0 & Hd & Hle) & Hnot).
  injection H0 as <-.
  destruct k as [| [| k]].
  - injection Hd as <-. lia.
  - apply Hnot. exists 2%nat, 3%nat, 5, 2, 5.
    repeat split; try reflexivity; lia.
  - replace (2 * S (S k) + 3)%nat with (S (S (S (S (S (S (S (2 * k)))))))) in Hd
      by lia.
    discriminate Hd.
Qed.

(** C6, counterexample.  In [fork_in_one] the only move of pov, the knight to
    d6, attacks the queen on b5 and the rook on f7, both hanging, and does
    not give checkmate; [fork] answers false and [cook] does not tag the
    puzzle fork. *)
Lemma fork_misses_last_move :
  (exists node,
      In node (odd_items (mainline Examples.fork_in_one))
      /\ is_fork_move Examples.fork_in_one node = true)
  /\ map (fun node =>
            (moved_piece_type node,
             fork_targets Examples.fork_in_one node,
             is_checkmate (node_board node)))
         (odd_items (mainline Examples.fork_in_one))
     = [(KNIGHT,
         [(mkPiece QUEEN BLACK, 33); (mkPiece ROOK BLACK, 53)],
         false)]
  /\ fork Examples.fork_in_one = Ok false
  /\ cook Examples.fork_in_one = Ok ["oneMove"]
  /\ ~ In "fork" ["oneMove"].
Proof.
  split; [| split; [run | split; [run | split; [run |]]]].
  - apply existsb_exists. run.
  - intros H. not_in H.
Qed.

(** The same fork one move before the end is found. *)
Lemma fork_found_example :
  fork Examples.fork_then_capture = Ok true
  /\ cook Examples.fork_then_capture = Ok ["fork"; "short"].
Proof. split; run. Qed.

(** C7, counterexample.  In [capture_then_quiet] the first move of pov that
    is not the last move of the puzzle is the capture Nxe5 (ply 2 of the
    game); [quiet_move] answers true all the same, on the strength of the
    next move of pov. *)
Lemma quiet_move_skips_capture :
  quiet_move Examples.capture_then_quiet = Ok true
  /\ option_map (fun node => (node_ply node, is_capture node))
       (first_inner_pov_move Examples.capture_then_quiet)
     = Some (2%nat, true)
  /\ ~ (exists node,
          first_inner_pov_move Examples.capture_then_quiet = Some node
          /\ without_check node = true
          /\ is_capture node = false
          /\ attacks_nothing Examples.capture_then_quiet node = true).
Proof.
  assert (Hfirst : option_map (fun node => (node_ply node, is_capture node))
                     (first_inner_pov_move Examples.capture_then_quiet)
                   = Some (2%nat, true)) by run.
  split; [run |]. split; [exact Hfirst |].
  intros (node & Hnode & _ & Hno & _).
  rewrite Hnode in Hfirst. cbn [option_map] in Hfirst.
  rewrite Hno in Hfirst. discriminate Hfirst.
Qed.

(** C8, counterexample.  In [opponent_en_passant] the first move of the
    mainline, a move of the opponent, is a capture en passant; the output of
    [cook] has no tag enPassant. *)
Lemma opponent_en_passant_untagged :
  (exists node,
      In node (mainline Examples.opponent_en_passant)
      /\ en_passant_signature node = true)
  /\ map (fun node => (moved_piece_type node, en_passant_signature node))
         (mainline Examples.opponent_en_passant)
     = [(PAWN, true); (KING, false)]
  /\ cook Examples.opponent_en_passant
     = Ok ["advancedPawn"; "defensiveMove"; "oneMove"]
  /\ ~ In "enPassant" ["advancedPawn"; "defensiveMove"; "oneMove"].
Proof.
  split; [| split; [run | split; [run |]]].
  - apply existsb_exists. run.
  - intros H. not_in H.
Qed.

(** [en_passant_tagged] on the games [pov_en_passant], where pov captures
    en passant and the tag is given, and [opponent_en_passant], where only
    the opponent does and it is not. *)
Lemma en_passant_tagged_witness :
  cook Examples.pov_en_passant = Ok ["advancedPawn"; "enPassant"; "oneMove"]
  /\ (exists node,
         In node (odd_items (mainline Examples.pov_en_passant))
         /\ en_passant_signature node = true)
  /\ In "enPassant" ["advancedPawn"; "enPassant"; "oneMove"]
  /\ cook Examples.opponent_en_passant
     = Ok ["advancedPawn"; "defensiveMove"; "oneMove"]
  /\ existsb en_passant_signature (mainline Examples.opponent_en_passant)
     = true
  /\ existsb en_passant_signature
       (odd_items (mainline Examples.opponent_en_passant)) = false
  /\ ~ In "enPassant" ["advancedPawn"; "defensiveMove"; "oneMove"].
Proof.
  assert (Hc : cook Examples.pov_en_passant
               = Ok ["advancedPawn"; "enPassant"; "oneMove"]) by run.
  assert (Hep : exists node,
             In node (odd_items (mainline Examples.pov_en_passant))
             /\ en_passant_signature node = true).
  { apply existsb_exists. run. }
  assert (Hc' : cook Examples.opponent_en_passant
                = Ok ["advancedPawn"; "defensiveMove"; "oneMove"]) by run.
  assert (Hnone : existsb en_passant_signature
                    (odd_items (mainline Examples.opponent_en_passant))
                  = false) by run.
  split; [exact Hc |]. split; [exact Hep |].
  split; [exact (proj2 (proj1 (en_passant_tagged Examples.pov_en_passant Hc))
                   Hep) |].
  split; [exact Hc' |]. split; [run |]. split; [exact Hnone |].
  exact (proj2 (en_passant_tagged Examples.opponent_en_passant Hc') Hnone).
Defined.

(** * Further properties of the detectors and of the driver *)

(** ** Loops, slices and nodes *)

(** The loop [for x in l: if c(x): return v(x)] returns [v] of the first item
    that passes [c]. *)
Lemma for_in_find (A R : Type) (l : list A) (c : A -> bool) (v : A -> R) :
  for_in l (fun x => if c x then return_ (v x) else continue)
  = Ok (option_map v (find c l)).
Proof.
  induction l as [| a l IH]; simpl; [reflexivity |].
  destruct (c a); simpl; [reflexivity | exact IH].
Qed.

(** What a loop returns, its body returned. *)
Lemma for_in_only (A R : Type) (P : R -> Prop) (l : list A)
    (body : A -> result (option R)) (r : R) :
  (forall x v, In x l -> body x = Ok (Some v) -> P v) ->
  for_in l body = Ok (Some r) -> P r.
Proof.
  intros Hbody H. apply for_in_returns in H.
  destruct H as (i & x & Hx & Hv & _).
  apply (Hbody x r); [eapply nth_error_In; eassumption | exact Hv].
Qed.

(** A loop whose body never returns falls through. *)
Lemma for_in_skip (A R : Type) (l : list A) :
  for_in l (fun _ : A => @continue R) = Ok None.
Proof. induction l as [| a l IH]; simpl; [reflexivity | exact IH]. Qed.

Lemma odd_items_length (A : Type) (l : list A) :
  length (odd_items l) = (length l / 2)%nat.
Proof.
  assert (H : forall n (l : list A), (length l <= n)%nat ->
                length (odd_items l) = (length l / 2)%nat).
  { induction n as [| n IH]; intros [| a [| b k]] Hk;
      cbn [odd_items length] in *; try reflexivity; try lia.
    rewrite IH by lia.
    replace (S (S (length k))) with (1 * 2 + length k)%nat by lia.
    rewrite Nat.div_add_l by lia. lia. }
  apply (H (length l)). lia.
Qed.

Lemma no_second_pov_move (A : Type) (l : list A) :
  (length l < 4)%nat -> drop_first (odd_items l) = [].
Proof.
  destruct l as [| a [| b [| c [| d l]]]]; simpl; intros H;
    try reflexivity; lia.
Qed.


Section MoreNodes.

Context {E : Engine}.

Lemma mainline_nth (puzzle : Puzzle) (j : nat) (n : GameNode) :
  nth_error (mainline puzzle) j = Some n ->
  n = mkNode (game puzzle) (S j)
  /\ (j < length (plies (game puzzle)))%nat.
Proof.
  unfold mainline, game_mainline. intros H.
  assert (Hj : (j < length (plies (game puzzle)))%nat).
  { assert (Hs : nth_error (map (mkNode (game puzzle))
                              (seq 1 (length (plies (game puzzle))))) j
                 <> None) by congruence.
    apply nth_error_Some in Hs. rewrite length_map, length_seq in Hs.
    exact Hs. }
  split; [| exact Hj].
  rewrite nth_error_map in H.
  rewrite (nth_error_nth' _ O) in H by (rewrite length_seq; exact Hj).
  rewrite seq_nth in H by exact Hj.
  cbn [option_map] in H. injection H as <-. reflexivity.
Qed.

(** A move of pov after the first one has three moves before it. *)
Lemma later_pov_move (puzzle : Puzzle) (node : GameNode) :
  In node (drop_first (odd_items (mainline puzzle))) ->
  exists j mb0 mb1 mb2 mb3,
    node = mkNode (game puzzle) (S (S (S (S j))))
    /\ nth_error (plies (game puzzle)) j = Some mb0
    /\ nth_error (plies (game puzzle)) (S j) = Some mb1
    /\ nth_error (plies (game puzzle)) (S (S j)) = Some mb2
    /\ nth_error (plies (game puzzle)) (S (S (S j))) = Some mb3.
Proof.
  intros H. apply In_nth_error in H. destruct H as [k Hk].
  rewrite drop_first_odd_nth in Hk. apply mainline_nth in Hk.
  destruct Hk as [-> Hlt].
  assert (Hex : forall i, (i < length (plies (game puzzle)))%nat ->
                  exists mb, nth_error (plies (game puzzle)) i = Some mb).
  { intros i Hi. destruct (nth_error (plies (game puzzle)) i) eqn:Hn;
      [eauto | apply nth_error_None in Hn; lia]. }
  destruct (Hex (2 * k)%nat) as [mb0 H0]; [lia |].
  destruct (Hex (S (2 * k))) as [mb1 H1]; [lia |].
  destruct (Hex (S (S (2 * k)))) as [mb2 H2]; [lia |].
  destruct (Hex (S (S (S (2 * k))))) as [mb3 H3]; [lia |].
  exists (2 * k)%nat, mb0, mb1, mb2, mb3.
  replace (S (2 * k + 3)) with (S (S (S (S (2 * k))))) by lia. auto.
Qed.

End MoreNodes.

(** ** Errors of the driver *)

Section DriverErrors.

Context {E : Engine} {U : Util}.

Lemma run_raise (puzzle : Puzzle)
    (l : list (TagKind * (Puzzle -> result bool))) (tags : list TagKind)
    (e : exn) :
  run puzzle l tags = Raise e <->
  exists i td,
    nth_error l i = Some td
    /\ snd td puzzle = Raise e
    /\ forall j prev, (j < i)%nat -> nth_error l j = Some prev ->
                      returns_normally puzzle prev.
Proof.
  revert tags. induction l as [| [t d] l IH]; intros tags; simpl.
  - split; [discriminate |].
    intros (i & td & Hi & _). destruct i; discriminate Hi.
  - destruct (d puzzle) as [b | e'] eqn:Hd; simpl.
    + rewrite IH. split.
      * intros (i & td & Hi & He & Hbefore). exists (S i), td.
        repeat split; auto.
        intros [| j] prev Hj Hprev; simpl in Hprev.
        -- injection Hprev as <-. exists b. exact Hd.
        -- apply (Hbefore j); [lia | exact Hprev].
      * intros (i & td & Hi & He & Hbefore). destruct i as [| i]; simpl in Hi.
        -- injection Hi as <-. simpl in He. congruence.
        -- exists i, td. repeat split; auto.
           intros j prev Hj Hprev. apply (Hbefore (S j)); [lia | exact Hprev].
    + split.
      * intros H. injection H as ->. exists O, (t, d).
        repeat split; auto. intros j prev Hj. lia.
      * intros (i & td & Hi & He & Hbefore). destruct i as [| i]; simpl in Hi.
        -- injection Hi as <-. simpl in He. congruence.
        -- destruct (Hbefore O (t, d) (Nat.lt_0_succ i) eq_refl) as [b Hb].
           simpl in Hb. congruence.
Qed.

(** X13.  [cook] raises exactly the exception of the first detector, in its
    order of evaluation, that raises: it raises [e] when some detector of the
    catalog raises [e] and every detector asked before it returns; it never
    returns a partial list. *)
Theorem cook_raises_first_error (puzzle : Puzzle) (e : exn) :
  cook puzzle = Raise e <->
  exists i td,
    nth_error catalog i = Some td
    /\ snd td puzzle = Raise e
    /\ forall j prev, (j < i)%nat -> nth_error catalog j = Some prev ->
                      returns_normally puzzle prev.
Proof.
  rewrite cook_run, <- (run_raise puzzle catalog (opt_list (mate_in puzzle))).
  destruct (run puzzle catalog (opt_list (mate_in puzzle))) as [tags | e'];
    cbn [bind]; [split; intros H; discriminate H | reflexivity].
Qed.

(** A tag of the catalog is in the output exactly when its detector fires. *)
Lemma tag_iff_fired (puzzle : Puzzle) (tags : list TagKind)
    (t : TagKind) (d : Puzzle -> result bool) :
  cook puzzle = Ok tags ->
  In (t, d) catalog ->
  (In t tags <-> d puzzle = Ok true).
Proof.
  intros Hc Hd. split.
  - apply tag_means_fired; assumption.
  - apply motif_in_output; assumption.
Qed.

(** X14.  The output of [cook] is never empty and has at most 22 tags: at
    most one mate tag, at most the 20 motif tags, and the length tag. *)
Theorem cook_output_size (puzzle : Puzzle) (tags : list TagKind) :
  cook puzzle = Ok tags ->
  (1 <= length tags <= 22)%nat.
Proof.
  intros Hc. apply cook_inv in Hc. destruct Hc as [-> _].
  rewrite !length_app, length_map. cbn [length].
  pose proof (filter_length_le (fires puzzle) catalog) as Hf.
  change (length catalog) with 20%nat in Hf.
  destruct (mate_in puzzle); cbn [opt_list length]; lia.
Qed.

End DriverErrors.

(** ** Detectors that never raise *)

Ltac settle :=
  repeat match goal with
         | |- context [match ?x with _ => _ end] => destruct x
         end;
  cbn [bind]; eexists; reflexivity.

Ltac at_later_move H :=
  let j := fresh "j" in
  let mb0 := fresh "mb" in
  let mb1 := fresh "mb" in
  let mb2 := fresh "mb" in
  let mb3 := fresh "mb" in
  let H0 := fresh "Hply" in
  let H1 := fresh "Hply" in
  let H2 := fresh "Hply" in
  let H3 := fresh "Hply" in
  destruct (later_pov_move _ _ H) as (j & mb0 & mb1 & mb2 & mb3 & -> & H0 & H1 & H2 & H3);
  unfold move_of, parent_of, node_move, node_parent;
  repeat (progress (cbn [node_ply node_game option_map attr bind];
                    rewrite ?H0, ?H1, ?H2, ?H3)).

Section Totality.

Context {E : Engine} {U : Util}.

Lemma advanced_pawn_value (puzzle : Puzzle) :
  advanced_pawn puzzle
  = Ok (existsb is_advanced_pawn_move (mainline puzzle)).
Proof.
  unfold advanced_pawn. rewrite for_in_exists. cbn [bind].
  destruct (existsb _ _); reflexivity.
Qed.

Lemma double_check_value (puzzle : Puzzle) :
  double_check puzzle
  = Ok (existsb gives_double_check (odd_items (mainline puzzle))).
Proof.
  unfold double_check.
  replace (for_in (odd_items (mainline puzzle)) _)
    with (for_in (odd_items (mainline puzzle))
            (fun node => if gives_double_check node
                         then return_ true else continue))
    by reflexivity.
  rewrite for_in_exists. cbn [bind]. destruct (existsb _ _); reflexivity.
Qed.

Lemma promotion_value (puzzle : Puzzle) :
  promotion puzzle
  = Ok (if existsb promotes (odd_items (mainline puzzle))
        then Some true else None).
Proof.
  unfold promotion. rewrite <- for_in_exists. apply for_in_ext.
  intros node Hin. apply odd_items_In in Hin.
  destruct (mainline_move _ _ Hin) as [m Hm].
  unfold promotes, move_of. rewrite Hm. reflexivity.
Qed.

Lemma discovered_check_value (puzzle : Puzzle) :
  discovered_check puzzle
  = Ok (existsb uncovers_check (odd_items (mainline puzzle))).
Proof.
  unfold discovered_check.
  replace (for_in (odd_items (mainline puzzle)) _)
    with (for_in (odd_items (mainline puzzle))
            (fun node => if uncovers_check node
                         then return_ true else continue)).
  - rewrite for_in_exists. cbn [bind]. destruct (existsb _ _); reflexivity.
  - apply for_in_ext. intros node Hin. apply odd_items_In in Hin.
    destruct (mainline_move _ _ Hin) as [m Hm].
    unfold uncovers_check, move_of. rewrite Hm. cbv zeta. cbn [attr].
    destruct (SS.nonempty (checkers (node_board node))); cbn [andb bind];
      reflexivity.
Qed.

Lemma attacking_f2_f7_value (puzzle : Puzzle) :
  attacking_f2_f7 puzzle
  = Ok match find captures_on_f2_f7 (odd_items (mainline puzzle)) with
       | Some node => king_next_door puzzle node
       | None => None
       end.
Proof.
  unfold attacking_f2_f7.
  replace (for_in (odd_items (mainline puzzle)) _)
    with (for_in (odd_items (mainline puzzle))
            (fun node => if captures_on_f2_f7 node
                         then return_ (king_next_door puzzle node)
                         else continue)).
  - rewrite for_in_find. cbn [bind]. destruct (find _ _); reflexivity.
  - apply for_in_ext. intros node Hin. apply odd_items_In in Hin.
    destruct (mainline_move _ _ Hin) as [m Hm].
    destruct (mainline_parent _ _ Hin) as [par Hpar].
    unfold captures_on_f2_f7, king_next_door, move_of, parent_of.
    rewrite Hm, Hpar. cbn [attr bind].
    destruct (is_some _ && _); [| reflexivity].
    destruct (piece_at _ _); reflexivity.
Qed.

Lemma quiet_move_value (puzzle : Puzzle) :
  quiet_move puzzle
  = Ok match find (is_quiet_candidate puzzle) (mainline puzzle) with
       | Some node => attacks_nothing puzzle node
       | None => false
       end.
Proof.
  rewrite quiet_move_loop, for_in_find. cbn [bind].
  destruct (find _ _); reflexivity.
Qed.

Lemma fork_returns (puzzle : Puzzle) : exists b, fork puzzle = Ok b.
Proof.
  rewrite fork_loop.
  destruct (for_in_total (fork_examined puzzle)
              (fun node =>
                 if is_mating_move node then return_ false
                 else if is_fork_move puzzle node then return_ true
                      else continue)) as [r Hr].
  - intros x _. destruct (is_mating_move x); [eexists; reflexivity |].
    destruct (is_fork_move puzzle x); eexists; reflexivity.
  - rewrite Hr. cbn [bind]. eexists. reflexivity.
Qed.

Lemma trapped_piece_returns (puzzle : Puzzle) :
  exists b, trapped_piece puzzle = Ok b.
Proof.
  unfold trapped_piece.
  match goal with
  | |- context [for_in ?l ?body] =>
      destruct (for_in_total l body) as [r Hr];
      [| rewrite Hr; cbn [bind]; eexists; reflexivity]
  end.
  intros node Hin. at_later_move Hin. unfold return_, continue. settle.
Qed.

Lemma skewer_value_returns (pt : PieceType) : exists v, skewer_value pt = Ok v.
Proof. destruct pt; eexists; reflexivity. Qed.

Lemma skewer_returns (puzzle : Puzzle) : exists b, skewer puzzle = Ok b.
Proof.
  unfold skewer.
  match goal with
  | |- context [for_in ?l ?body] =>
      destruct (for_in_total l body) as [r Hr];
      [| rewrite Hr; cbn [bind]; eexists; reflexivity]
  end.
  intros node Hin. at_later_move Hin.
  unfold return_, continue.
  repeat first
    [ match goal with
      | |- context [skewer_value ?pt] =>
          let v := fresh "v" in
          let Hv := fresh "Hv" in
          destruct (skewer_value_returns pt) as [v Hv]; rewrite Hv;
          cbn [bind]
      end
    | match goal with
      | |- context [match ?x with _ => _ end] => destruct x
      end ].
  all: eexists; reflexivity.
Qed.

Lemma discovered_attack_returns (puzzle : Puzzle) :
  exists b, discovered_attack puzzle = Ok b.
Proof.
  unfold discovered_attack. rewrite discovered_check_value. cbn [bind].
  destruct (existsb _ _); [eexists; reflexivity |].
  match goal with
  | |- context [for_in ?l ?body] =>
      destruct (for_in_total l body) as [r Hr];
      [| rewrite Hr; cbn [bind]; eexists; reflexivity]
  end.
  intros node Hin. at_later_move Hin. unfold return_, continue. settle.
Qed.

(** X2.  Eleven detectors return normally on every puzzle, whatever the
    engine answers and however short the mainline is: [advanced_pawn],
    [double_check], [quiet_move], [fork], [trapped_piece],
    [discovered_check], [discovered_attack], [skewer], [attacking_f2_f7],
    [en_passant] and [promotion] never raise. *)
Theorem detectors_that_never_raise (puzzle : Puzzle) :
  (exists b, advanced_pawn puzzle = Ok b)
  /\ (exists b, double_check puzzle = Ok b)
  /\ (exists b, quiet_move puzzle = Ok b)
  /\ (exists b, fork puzzle = Ok b)
  /\ (exists b, trapped_piece puzzle = Ok b)
  /\ (exists b, discovered_check puzzle = Ok b)
  /\ (exists b, discovered_attack puzzle = Ok b)
  /\ (exists b, skewer puzzle = Ok b)
  /\ (exists b, attacking_f2_f7 puzzle = Ok b)
  /\ (exists b, en_passant puzzle = Ok b)
  /\ (exists b, promotion puzzle = Ok b).
Proof.
  repeat split.
  - rewrite advanced_pawn_value. eauto.
  - rewrite double_check_value. eauto.
  - rewrite quiet_move_value. eauto.
  - apply fork_returns.
  - apply trapped_piece_returns.
  - rewrite discovered_check_value. eauto.
  - apply discovered_attack_returns.
  - apply skewer_returns.
  - rewrite attacking_f2_f7_value. eauto.
  - rewrite en_passant_value. eauto.
  - rewrite promotion_value. eauto.
Qed.

End Totality.

(** ** What the detectors need, and what they answer *)

Ltac only_true H :=
  repeat (cbv zeta in H;
          match type of H with
          | bind _ _ = Ok _ => bind_inv H
          | context [match ?x with _ => _ end] => destruct x
          end);
  unfold return_, continue in H;
  first [discriminate H | injection H as <-; reflexivity].

Section Answers.

Context {E : Engine} {U : Util}.

(** X3.  On a mainline of fewer than 4 plies pov has no second move, and the
    detectors that start at the second move of pov answer no tag without
    raising: [trapped_piece], [deflection], [skewer], [self_interference]
    and [interference] answer [False], [clearance] and [capturing_defender]
    answer [None], [sacrifice] does not answer [True], and the output of
    [cook] has none of their tags. *)
Theorem too_short_for_a_second_move (puzzle : Puzzle) :
  (length (mainline puzzle) < 4)%nat ->
  trapped_piece puzzle = Ok false
  /\ deflection puzzle = Ok false
  /\ skewer puzzle = Ok false
  /\ self_interference puzzle = Ok false
  /\ interference puzzle = Ok false
  /\ clearance puzzle = Ok None
  /\ capturing_defender puzzle = Ok None
  /\ sacrifice puzzle <> Ok true
  /\ forall tags, cook puzzle = Ok tags ->
       forall t,
         In t ["sacrifice"; "trappedPiece"; "deflection"; "skewer";
               "interference"; "clearance"; "capturingDefender"] ->
         ~ In t tags.
Proof.
  intros Hlen.
  pose proof (no_second_pov_move (mainline puzzle) Hlen) as Hnone.
  assert (Htrapped : trapped_piece puzzle = Ok false)
    by (unfold trapped_piece; rewrite Hnone; reflexivity).
  assert (Hdefl : deflection puzzle = Ok false)
    by (unfold deflection; rewrite Hnone; reflexivity).
  assert (Hskewer : skewer puzzle = Ok false)
    by (unfold skewer; rewrite Hnone; reflexivity).
  assert (Hself : self_interference puzzle = Ok false)
    by (unfold self_interference; rewrite Hnone; reflexivity).
  assert (Hinter : interference puzzle = Ok false)
    by (unfold interference; rewrite Hnone; reflexivity).
  assert (Hclear : clearance puzzle = Ok None)
    by (unfold clearance; rewrite Hnone; reflexivity).
  assert (Hcapt : capturing_defender puzzle = Ok None)
    by (unfold capturing_defender; rewrite Hnone; reflexivity).
  assert (Hsac : sacrifice puzzle <> Ok true).
  { unfold sacrifice. cbv zeta.
    rewrite no_second_pov_move by (rewrite length_map; exact Hlen).
    destruct (index _ 0); cbn [bind for_in or_return]; discriminate. }
  repeat (split; [assumption |]).
  intros tags Hc t Ht Hin. cbn [In] in Ht.
  assert (Hfired : forall d, In (t, d) catalog -> d puzzle = Ok true).
  { intros d Hd. apply tag_means_fired with (tags := tags) (t := t); assumption. }
  destruct Ht as [<- | [<- | [<- | [<- | [<- | [<- | [<- | []]]]]]]].
  - apply Hsac. apply Hfired. in_catalog.
  - assert (H : trapped_piece puzzle = Ok true) by (apply Hfired; in_catalog).
    congruence.
  - assert (H : deflection puzzle = Ok true) by (apply Hfired; in_catalog).
    congruence.
  - assert (H : skewer puzzle = Ok true) by (apply Hfired; in_catalog).
    congruence.
  - assert (H : interference_either puzzle = Ok true)
      by (apply Hfired; in_catalog).
    unfold interference_either in H. rewrite Hself in H. cbn [bind] in H.
    congruence.
  - assert (H : truth clearance puzzle = Ok true) by (apply Hfired; in_catalog).
    unfold truth in H. rewrite Hclear in H. discriminate H.
  - assert (H : truth capturing_defender puzzle = Ok true)
      by (apply Hfired; in_catalog).
    unfold truth in H. rewrite Hcapt in H. discriminate H.
Qed.


(** X5.  A discovered check is a discovered attack: [discovered_attack]
    answers [True] whenever [discovered_check] does, the two agree on a
    mainline of fewer than 4 plies, and the output of [cook] has the tag
    discoveredAttack as soon as some move of pov leaves the opponent in
    check from a piece other than the one that moved. *)
Theorem discovered_check_is_discovered_attack (puzzle : Puzzle) :
  (discovered_check puzzle = Ok true -> discovered_attack puzzle = Ok true)
  /\ ((length (mainline puzzle) < 4)%nat ->
      discovered_attack puzzle = discovered_check puzzle)
  /\ (forall tags, cook puzzle = Ok tags ->
        (exists node, In node (odd_items (mainline puzzle))
                      /\ uncovers_check node = true) ->
        In "discoveredAttack" tags).
Proof.
  assert (H1 : discovered_check puzzle = Ok true ->
               discovered_attack puzzle = Ok true).
  { intros H. unfold discovered_attack. rewrite H. reflexivity. }
  split; [exact H1 |]. split.
  - intros Hlen. unfold discovered_attack.
    rewrite (no_second_pov_move (mainline puzzle) Hlen).
    destruct (discovered_check puzzle) as [[|] | e]; reflexivity.
  - intros tags Hc (node & Hin & Hu).
    apply motif_in_output with (puzzle := puzzle) (d := discovered_attack);
      [exact Hc | in_catalog |].
    apply H1. rewrite discovered_check_value. f_equal.
    apply existsb_exists. exists node. auto.
Qed.

(** X6.  [attacking_f2_f7] is decided by the first move of pov that takes
    something on f2 or f7, and by that move alone: its answer is whether a
    king of the opponent then stands on e1 (e8 for f7), [None] when that
    square is empty or when there is no such capture.  The output of [cook]
    has the tag attackingF2F7 exactly when that first capture has the king
    next door. *)
Theorem attacking_f2_f7_first_capture (puzzle : Puzzle) :
  attacking_f2_f7 puzzle
  = Ok match find captures_on_f2_f7 (odd_items (mainline puzzle)) with
       | Some node => king_next_door puzzle node
       | None => None
       end
  /\ forall tags, cook puzzle = Ok tags ->
       (In "attackingF2F7" tags <->
        exists node,
          find captures_on_f2_f7 (odd_items (mainline puzzle)) = Some node
          /\ king_next_door puzzle node = Some true).
Proof.
  split; [apply attacking_f2_f7_value |].
  intros tags Hc.
  rewrite (tag_iff_fired puzzle (t := "attackingF2F7") (d := (truth attacking_f2_f7)) Hc)
    by in_catalog.
  unfold truth. rewrite attacking_f2_f7_value. cbn [bind]. split.
  - destruct (find _ _) as [node |]; [| discriminate].
    intros H. exists node. split; [reflexivity |].
    destruct (king_next_door puzzle node) as [[|] |];
      [reflexivity | discriminate H | discriminate H].
  - intros (node & -> & ->). reflexivity.
Qed.

(** X7.  [advanced_pawn] looks at every move of the mainline, those of the
    opponent included: the output of [cook] has the tag advancedPawn exactly
    when some move of either side is an advanced pawn move. *)
Theorem advanced_pawn_of_either_side (puzzle : Puzzle) :
  advanced_pawn puzzle = Ok (existsb is_advanced_pawn_move (mainline puzzle))
  /\ forall tags, cook puzzle = Ok tags ->
       (In "advancedPawn" tags <->
        exists node, In node (mainline puzzle)
                     /\ is_advanced_pawn_move node = true).
Proof.
  split; [apply advanced_pawn_value |].
  intros tags Hc.
  rewrite (tag_iff_fired puzzle (t := "advancedPawn") (d := advanced_pawn) Hc) by in_catalog.
  rewrite advanced_pawn_value, <- existsb_exists. split.
  - intros H. injection H as H. exact H.
  - intros ->. reflexivity.
Qed.

(** X8.  Three tags are settled by the moves of pov alone: the output of
    [cook] has doubleCheck exactly when some move of pov leaves more than one
    checker, promotion exactly when some move of pov names a promotion piece,
    and enPassant exactly when some move of pov is a pawn move that changes
    file onto an empty square. *)
Theorem tags_of_pov_moves (puzzle : Puzzle) (tags : list TagKind) :
  cook puzzle = Ok tags ->
  (In "doubleCheck" tags <->
   exists node, In node (odd_items (mainline puzzle))
                /\ gives_double_check node = true)
  /\ (In "promotion" tags <->
      exists node, In node (odd_items (mainline puzzle))
                   /\ promotes node = true)
  /\ (In "enPassant" tags <->
      exists node, In node (odd_items (mainline puzzle))
                   /\ en_passant_signature node = true).
Proof.
  intros Hc. split; [| split].
  - rewrite (tag_iff_fired puzzle (t := "doubleCheck") (d := double_check) Hc) by in_catalog.
    rewrite double_check_value, <- existsb_exists. split.
    + intros H. injection H as H. exact H.
    + intros ->. reflexivity.
  - rewrite (tag_iff_fired puzzle (t := "promotion") (d := (truth promotion)) Hc) by in_catalog.
    unfold truth. rewrite promotion_value, <- existsb_exists. cbn [bind].
    destruct (existsb _ _); split; intros H; try reflexivity; discriminate H.
  - rewrite (tag_iff_fired puzzle (t := "enPassant") (d := (truth en_passant)) Hc) by in_catalog.
    unfold truth. rewrite en_passant_value, <- existsb_exists. cbn [bind].
    destruct (existsb _ _); split; intros H; try reflexivity; discriminate H.
Qed.

(** X9.  The five detectors without a [return] after their loop never answer
    [False]: [pin], [clearance], [en_passant], [promotion] and
    [capturing_defender] answer [True] or [None], whenever they return. *)
Theorem true_or_none (puzzle : Puzzle) (b : bool) :
  (pin puzzle = Ok (Some b) -> b = true)
  /\ (clearance puzzle = Ok (Some b) -> b = true)
  /\ (en_passant puzzle = Ok (Some b) -> b = true)
  /\ (promotion puzzle = Ok (Some b) -> b = true)
  /\ (capturing_defender puzzle = Ok (Some b) -> b = true).
Proof.
  repeat split.
  - unfold pin. intros H.
    apply for_in_only with (P := fun v => v = true) in H; [exact H |].
    intros node v _ Hnode. cbv zeta in Hnode.
    apply for_in_only with (P := fun v => v = true) in Hnode; [exact Hnode |].
    intros [square piece] w _ Hpiece.
    destruct (Bool.eqb (color piece) (pov puzzle)); [discriminate Hpiece |].
    cbv zeta in Hpiece. destruct (_ =? BB_ALL); [discriminate Hpiece |].
    apply for_in_only with (P := fun v => v = true) in Hpiece; [exact Hpiece |].
    intros attack u _ Hattack. only_true Hattack.
  - unfold clearance. intros H.
    apply for_in_only with (P := fun v => v = true) in H; [exact H |].
    intros node v _ Hnode. only_true Hnode.
  - rewrite en_passant_value. destruct (existsb _ _); intros H;
      [injection H as <-; reflexivity | discriminate H].
  - rewrite promotion_value. destruct (existsb _ _); intros H;
      [injection H as <-; reflexivity | discriminate H].
  - unfold capturing_defender. intros H.
    apply for_in_only with (P := fun v => v = true) in H; [exact H |].
    intros node v _ Hnode. only_true Hnode.
Qed.

(** *** The last two plies *)

Lemma defensive_move_short (puzzle : Puzzle) :
  (length (mainline puzzle) < 2)%nat ->
  defensive_move puzzle = Raise IndexError.
Proof.
  intros H. unfold defensive_move, index_neg.
  destruct (Nat.leb_spec 2 (length (mainline puzzle))); [lia | reflexivity].
Qed.

Lemma attraction_short (puzzle : Puzzle) :
  (length (mainline puzzle) < 2)%nat -> attraction puzzle = Ok false.
Proof.
  intros H. unfold attraction.
  destruct (mainline puzzle) as [| a [| b l]]; cbn [length] in H;
    [reflexivity | reflexivity | lia].
Qed.

Lemma deflection_short (puzzle : Puzzle) :
  (length (mainline puzzle) < 4)%nat -> deflection puzzle = Ok false.
Proof.
  intros H. unfold deflection.
  rewrite (no_second_pov_move (mainline puzzle) H). reflexivity.
Qed.

Lemma mainline_at (puzzle : Puzzle) (j : nat) :
  (j < length (mainline puzzle))%nat ->
  nth_error (mainline puzzle) j = Some (mkNode (game puzzle) (S j)).
Proof.
  intros Hj. destruct (nth_error (mainline puzzle) j) as [n |] eqn:Hn.
  - apply mainline_nth in Hn. destruct Hn as [-> _]. reflexivity.
  - apply nth_error_None in Hn. lia.
Qed.

(** X1.  [cook] needs a mainline of two plies: on a shorter one the first
    five detectors return, [defensive_move] reads [mainline[-2]], and [cook]
    raises [IndexError] whatever the position is. *)
Theorem cook_needs_two_plies (puzzle : Puzzle) :
  (length (mainline puzzle) < 2)%nat ->
  cook puzzle = Raise IndexError.
Proof.
  intros Hlen. rewrite cook_run.
  assert (Hrun : run puzzle catalog (opt_list (mate_in puzzle))
                 = Raise IndexError).
  { apply run_raise. exists 5%nat, ("defensiveMove", defensive_move).
    split; [reflexivity |].
    split; [apply defensive_move_short; exact Hlen |].
    intros j prev Hj Hprev. unfold returns_normally.
    unfold catalog in Hprev.
    destruct j as [| [| [| [| [| j]]]]]; cbn [nth_error] in Hprev;
      try lia; injection Hprev as <-; cbn [snd].
    - rewrite attraction_short by exact Hlen. eauto.
    - rewrite deflection_short by lia. eauto.
    - rewrite advanced_pawn_value. eauto.
    - rewrite double_check_value. eauto.
    - rewrite quiet_move_value. eauto. }
  rewrite Hrun. reflexivity.
Qed.

(** X12.  [defensive_move] judges the last ply of the game, whoever played
    it, from the position one ply earlier: with two plies or more it returns
    whether that position had at least three legal moves and the last move
    gave no check, took nothing, attacks nothing and is no advanced pawn
    move; it raises [IndexError] exactly when the mainline has fewer than
    two plies. *)
Theorem defensive_move_answer (puzzle : Puzzle) :
  let g := game puzzle in
  ((2 <= length (mainline puzzle))%nat ->
   defensive_move puzzle
   = Ok (is_defensive puzzle (mkNode g (length (plies g) - 1)) (game_end g)))
  /\ (defensive_move puzzle = Raise IndexError
      <-> (length (mainline puzzle) < 2)%nat).
Proof.
  intros g.
  assert (Hlong : (2 <= length (mainline puzzle))%nat ->
                  defensive_move puzzle
                  = Ok (is_defensive puzzle
                          (mkNode g (length (plies g) - 1)) (game_end g))).
  { intros Hlen. pose proof (mainline_length puzzle) as Hn. fold g in Hn.
    unfold defensive_move, index_neg, index, is_defensive, attacks_nothing.
    destruct (Nat.leb_spec 2 (length (mainline puzzle))); [| lia].
    destruct (Nat.leb_spec 1 (length (mainline puzzle))); [| lia].
    rewrite !mainline_at by lia. fold g. cbn [bind].
    replace (S (length (mainline puzzle) - 2))
      with (length (plies g) - 1)%nat by lia.
    replace (S (length (mainline puzzle) - 1))
      with (length (plies g)) by lia.
    fold (game_end g).
    destruct (legal_moves_count _ <? 3); [reflexivity |].
    destruct (SS.nonempty _ || is_capture _); [reflexivity |].
    cbn [negb andb].
    assert (Hin : In (game_end g) (mainline puzzle)).
    { apply nth_error_In with (n := (length (mainline puzzle) - 1)%nat).
      rewrite mainline_at by lia. unfold game_end. f_equal. f_equal. lia. }
    destruct (mainline_move _ _ Hin) as [m Hm].
    unfold move_of. rewrite Hm. cbn [attr bind].
    destruct (attacked_opponent_pieces _ _ _); reflexivity. }
  split; [exact Hlong |]. split.
  - intros H. destruct (Nat.leb_spec 2 (length (mainline puzzle)));
      [| assumption].
    rewrite Hlong in H by assumption. discriminate H.
  - apply defensive_move_short.
Qed.

(** X10.  [hanging_piece] looks at the first two plies and, when there are
    four plies or more, at the fourth and at nothing after it.  With two
    plies it answers whether the first move of the opponent was no capture
    and left no check and the first move of pov lands on a hanging piece
    that is not a pawn; with four plies or more it asks in addition that the
    balance of pov after the fourth ply is not under the balance after the
    second. *)
Theorem hanging_piece_answer (puzzle : Puzzle) :
  let m0 := mkNode (game puzzle) 1 in
  let m1 := mkNode (game puzzle) 2 in
  let m3 := mkNode (game puzzle) 4 in
  let start := negb (is_capture m0) && negb (is_check (node_board m0))
               && takes_hanging_piece m0 m1 in
  (length (mainline puzzle) = 2%nat -> hanging_piece puzzle = Ok start)
  /\ ((4 <= length (mainline puzzle))%nat ->
      hanging_piece puzzle
      = Ok (start
            && (material_diff (node_board m3) (pov puzzle)
                >=? material_diff (node_board m1) (pov puzzle)))).
Proof.
  intros m0 m1 m3 start.
  assert (Hboth : length (mainline puzzle) = 2%nat
                  \/ (4 <= length (mainline puzzle))%nat ->
                  hanging_piece puzzle
                  = Ok (start
                        && ((length (mainline puzzle) <? 3)%nat
                            || (material_diff (node_board m3) (pov puzzle)
                                >=? material_diff (node_board m1)
                                                  (pov puzzle))))).
  { intros Hlen. unfold hanging_piece, index, start, takes_hanging_piece.
    rewrite !mainline_at by lia. fold m0 m1. cbn [bind].
    destruct (is_capture m0); [reflexivity |].
    destruct (is_check (node_board m0)); [reflexivity |]. cbn [negb andb].
    assert (Hin : In m1 (mainline puzzle)).
    { apply nth_error_In with (n := 1%nat). apply mainline_at. lia. }
    destruct (mainline_move _ _ Hin) as [mv Hmv].
    unfold move_of. rewrite Hmv. cbn [attr bind].
    destruct (piece_at (node_board m0) (to_square mv)) as [c |];
      [| reflexivity].
    destruct (negb (pt_eqb (piece_type c) PAWN)); [| reflexivity].
    destruct (is_hanging (node_board m0) c (to_square mv)); [| reflexivity].
    cbn [andb].
    destruct (Nat.ltb_spec (length (mainline puzzle)) 3); [reflexivity |].
    rewrite mainline_at by lia. fold m3. cbn [bind orb].
    destruct (_ >=? _); reflexivity. }
  split.
  - intros Hlen. rewrite Hboth by (left; exact Hlen). rewrite Hlen.
    cbn [Nat.ltb Nat.leb orb]. rewrite andb_true_r. reflexivity.
  - intros Hlen. rewrite Hboth by (right; exact Hlen).
    destruct (Nat.ltb_spec (length (mainline puzzle)) 3); [lia |].
    reflexivity.
Qed.

(** X11.  [mate_in] counts the moves of pov, and its last answer also covers
    the game without one: it answers mateIn5+ exactly when the final position
    is checkmate and pov has five moves or more, or none at all. *)
Theorem mate_in_five_plus (puzzle : Puzzle) :
  let final := node_board (game_end (game puzzle)) in
  let k := length (odd_items (mainline puzzle)) in
  mate_in puzzle = Some "mateIn5+"
  <-> is_checkmate final = true /\ (k = 0 \/ 5 <= k)%nat.
Proof.
  intros final k. unfold mate_in. fold final.
  unfold k. rewrite odd_items_length.
  destruct (is_checkmate final); cbn [negb].
  - destruct (Nat.eqb_spec (length (mainline puzzle) / 2) 1);
      [split; [intros H; discriminate H | intros [_ H]; lia] |].
    destruct (Nat.eqb_spec (length (mainline puzzle) / 2) 2);
      [split; [intros H; discriminate H | intros [_ H]; lia] |].
    destruct (Nat.eqb_spec (length (mainline puzzle) / 2) 3);
      [split; [intros H; discriminate H | intros [_ H]; lia] |].
    destruct (Nat.eqb_spec (length (mainline puzzle) / 2) 4);
      [split; [intros H; discriminate H | intros [_ H]; lia] |].
    split; [intros _; split; [reflexivity | lia] | reflexivity].
  - split; [intros H; discriminate H | intros [H _]; discriminate H].
Qed.

(** X15.  A defender on a1 is no defender: [self_interference] and
    [interference] take the lowest square that defends the captured piece
    and test it as a truth value, and square a1 is the integer 0.  When, at
    every capture by a later move of pov, that lowest defender stood on a1
    (two plies before the move for [self_interference], three plies before
    for [interference]), the detector answers [False]. *)
Theorem defender_on_a1_is_ignored (puzzle : Puzzle) :
  (forallb (lowest_defender_on_a1 2)
     (drop_first (odd_items (mainline puzzle))) = true ->
   self_interference puzzle = Ok false)
  /\ (forallb (lowest_defender_on_a1 3)
        (drop_first (odd_items (mainline puzzle))) = true ->
      interference puzzle = Ok false).
Proof.
  split; intros Hall.
  - unfold self_interference.
    replace (for_in (drop_first (odd_items (mainline puzzle))) _)
      with (for_in (drop_first (odd_items (mainline puzzle)))
              (fun _ : GameNode => @continue bool));
      [rewrite for_in_skip; reflexivity |].
    apply for_in_ext. intros node Hin.
    pose proof (proj1 (forallb_forall _ _) Hall node Hin) as Ha1.
    revert Ha1. unfold lowest_defender_on_a1.
    at_later_move Hin. cbn [Nat.sub].
    destruct (piece_at _ _) as [capture |]; [| reflexivity].
    destruct (is_hanging _ _ _); [| reflexivity].
    destruct (SS.pop_or_none _) as [s |]; [| discriminate].
    intros Hs. cbn [truthy_square]. rewrite Hs. reflexivity.
  - unfold interference.
    replace (for_in (drop_first (odd_items (mainline puzzle))) _)
      with (for_in (drop_first (odd_items (mainline puzzle)))
              (fun _ : GameNode => @continue bool));
      [rewrite for_in_skip; reflexivity |].
    apply for_in_ext. intros node Hin.
    pose proof (proj1 (forallb_forall _ _) Hall node Hin) as Ha1.
    revert Ha1. unfold lowest_defender_on_a1.
    at_later_move Hin. cbn [Nat.sub].
    destruct (piece_at _ _) as [capture |]; [| reflexivity].
    destruct (negb _ && is_hanging _ _ _); [| reflexivity].
    destruct (SS.pop_or_none _) as [s |]; [| discriminate].
    intros Hs. cbn [truthy_square]. rewrite Hs. reflexivity.
Qed.

(** X16.  The tag interference stands for two detectors, asked one after the
    other: the output of [cook] has it exactly when [self_interference]
    answers [True], or answers [False] and [interference] answers [True]. *)
Theorem interference_tag (puzzle : Puzzle) (tags : list TagKind) :
  cook puzzle = Ok tags ->
  (In "interference" tags <->
   self_interference puzzle = Ok true
   \/ (self_interference puzzle = Ok false
       /\ interference puzzle = Ok true)).
Proof.
  intros Hc.
  rewrite (tag_iff_fired puzzle (t := "interference")
             (d := interference_either) Hc) by in_catalog.
  unfold interference_either.
  destruct (self_interference puzzle) as [[|] | e]; cbn [bind].
  - split; [intros _; left; reflexivity | reflexivity].
  - split; [intros H; right; split; [reflexivity | exact H] |].
    intros [H | [_ H]]; [discriminate H | exact H].
  - split; [intros H; discriminate H |].
    intros [H | [H _]]; discriminate H.
Qed.

End Answers.

(** ** The further properties on games of standard chess *)

(** [cook_needs_two_plies] on a game of one ply. *)
Lemma cook_needs_two_plies_witness :
  (length (mainline Games.mated_one_ply) < 2)%nat
  /\ cook Games.mated_one_ply = Raise IndexError.
Proof.
  assert (H : (length (mainline Games.mated_one_ply) < 2)%nat)
    by (apply Nat.ltb_lt; run).
  split; [exact H | exact (cook_needs_two_plies Games.mated_one_ply H)].
Defined.

(** [too_short_for_a_second_move] on the two plies of [two_plies]. *)
Lemma too_short_for_a_second_move_witness :
  (length (mainline Examples.two_plies) < 4)%nat
  /\ trapped_piece Examples.two_plies = Ok false
  /\ deflection Examples.two_plies = Ok false
  /\ skewer Examples.two_plies = Ok false
  /\ self_interference Examples.two_plies = Ok false
  /\ interference Examples.two_plies = Ok false
  /\ clearance Examples.two_plies = Ok None
  /\ capturing_defender Examples.two_plies = Ok None
  /\ sacrifice Examples.two_plies <> Ok true
  /\ forall tags, cook Examples.two_plies = Ok tags ->
       forall t,
         In t ["sacrifice"; "trappedPiece"; "deflection"; "skewer";
               "interference"; "clearance"; "capturingDefender"] ->
         ~ In t tags.
Proof.
  assert (H : (length (mainline Examples.two_plies) < 4)%nat)
    by (apply Nat.ltb_lt; run).
  split; [exact H | exact (too_short_for_a_second_move Examples.two_plies H)].
Defined.


(** [discovered_check_is_discovered_attack] on the game [discovered]: the
    knight moves away and the rook gives the check. *)
Lemma discovered_check_is_discovered_attack_witness :
  cook Games.discovered = Ok ["discoveredAttack"; "oneMove"]
  /\ discovered_check Games.discovered = Ok true
  /\ discovered_attack Games.discovered = Ok true
  /\ In "discoveredAttack" ["discoveredAttack"; "oneMove"].
Proof.
  assert (Hc : cook Games.discovered = Ok ["discoveredAttack"; "oneMove"])
    by run.
  assert (Hd : discovered_check Games.discovered = Ok true) by run.
  destruct (discovered_check_is_discovered_attack Games.discovered)
    as (Hattack & _ & Htag).
  split; [exact Hc |]. split; [exact Hd |]. split; [exact (Hattack Hd) |].
  apply (Htag _ Hc). apply existsb_exists. run.
Defined.

(** [attacking_f2_f7_first_capture] on the game [two_captures]: the first
    capture, on f2, is far from any king and settles the answer; the capture
    on f7 next to the king on e8 comes too late. *)
Lemma attacking_f2_f7_first_capture_witness :
  cook Games.two_captures = Ok ["short"]
  /\ attacking_f2_f7 Games.two_captures = Ok None
  /\ map (fun node => (captures_on_f2_f7 node,
                       king_next_door Games.two_captures node))
       (odd_items (mainline Games.two_captures))
     = [(true, None); (true, Some true)]
  /\ ~ (exists node,
          find captures_on_f2_f7 (odd_items (mainline Games.two_captures))
          = Some node
          /\ king_next_door Games.two_captures node = Some true).
Proof.
  assert (Hc : cook Games.two_captures = Ok ["short"]) by run.
  destruct (attacking_f2_f7_first_capture Games.two_captures)
    as [_ Htag].
  split; [exact Hc |]. split; [run |]. split; [run |].
  intros H. apply (Htag _ Hc) in H.
  destruct H as [H | []]. vm_compute in H. discriminate H.
Defined.

(** [advanced_pawn_of_either_side] on the game [opponent_en_passant]: no
    move of pov is an advanced pawn move, the move of the opponent is one,
    and the puzzle is tagged. *)
Lemma advanced_pawn_of_either_side_witness :
  cook Examples.opponent_en_passant
  = Ok ["advancedPawn"; "defensiveMove"; "oneMove"]
  /\ existsb is_advanced_pawn_move
       (odd_items (mainline Examples.opponent_en_passant)) = false
  /\ exists node, In node (mainline Examples.opponent_en_passant)
                  /\ is_advanced_pawn_move node = true.
Proof.
  assert (Hc : cook Examples.opponent_en_passant
               = Ok ["advancedPawn"; "defensiveMove"; "oneMove"]) by run.
  destruct (advanced_pawn_of_either_side Examples.opponent_en_passant)
    as [_ Htag].
  split; [exact Hc |]. split; [run |].
  apply (Htag _ Hc). left. reflexivity.
Defined.

(** [tags_of_pov_moves] on the game [pov_en_passant]. *)
Lemma tags_of_pov_moves_witness :
  cook Examples.pov_en_passant = Ok ["advancedPawn"; "enPassant"; "oneMove"]
  /\ (exists node, In node (odd_items (mainline Examples.pov_en_passant))
                   /\ en_passant_signature node = true)
  /\ ~ (exists node, In node (odd_items (mainline Examples.pov_en_passant))
                     /\ promotes node = true)
  /\ ~ (exists node, In node (odd_items (mainline Examples.pov_en_passant))
                     /\ gives_double_check node = true).
Proof.
  assert (Hc : cook Examples.pov_en_passant
               = Ok ["advancedPawn"; "enPassant"; "oneMove"]) by run.
  destruct (tags_of_pov_moves Examples.pov_en_passant Hc)
    as (Hdouble & Hprom & Hep).
  split; [exact Hc |]. split; [| split].
  - apply Hep. right. left. reflexivity.
  - intros H. apply Hprom in H.
    destruct H as [H | [H | [H | []]]]; vm_compute in H; discriminate H.
  - intros H. apply Hdouble in H.
    destruct H as [H | [H | [H | []]]]; vm_compute in H; discriminate H.
Defined.

(** [defensive_move_answer] on the games [four_plies] and [mated_one_ply]. *)
Lemma defensive_move_answer_witness :
  (2 <= length (mainline Examples.four_plies))%nat
  /\ defensive_move Examples.four_plies = Ok true
  /\ (length (mainline Games.mated_one_ply) < 2)%nat
  /\ defensive_move Games.mated_one_ply = Raise IndexError.
Proof.
  assert (H4 : (2 <= length (mainline Examples.four_plies))%nat)
    by (apply Nat.leb_le; run).
  assert (H1 : (length (mainline Games.mated_one_ply) < 2)%nat)
    by (apply Nat.ltb_lt; run).
  destruct (defensive_move_answer Examples.four_plies) as [Hlong _].
  destruct (defensive_move_answer Games.mated_one_ply) as [_ Hshort].
  split; [exact H4 |]. split; [rewrite (Hlong H4); run |].
  split; [exact H1 | exact (proj2 Hshort H1)].
Defined.

(** [hanging_piece_answer] on the games [two_plies] and [four_plies]. *)
Lemma hanging_piece_answer_witness :
  length (mainline Examples.two_plies) = 2%nat
  /\ hanging_piece Examples.two_plies = Ok true
  /\ (4 <= length (mainline Examples.four_plies))%nat
  /\ hanging_piece Examples.four_plies = Ok true.
Proof.
  assert (H2 : length (mainline Examples.two_plies) = 2%nat) by run.
  assert (H4 : (4 <= length (mainline Examples.four_plies))%nat)
    by (apply Nat.leb_le; run).
  destruct (hanging_piece_answer Examples.two_plies) as [Htwo _].
  destruct (hanging_piece_answer Examples.four_plies) as [_ Hfour].
  split; [exact H2 |]. split; [rewrite (Htwo H2); run |].
  split; [exact H4 | rewrite (Hfour H4); run].
Defined.

(** [mate_in_five_plus] on a game of one ply that ends in checkmate: pov
    has no move, and the game is a mate in five or more. *)
Lemma mate_in_five_plus_witness :
  length (odd_items (mainline Games.mated_one_ply)) = 0%nat
  /\ mate_in Games.mated_one_ply = Some "mateIn5+".
Proof.
  assert (H0 : length (odd_items (mainline Games.mated_one_ply)) = 0%nat)
    by run.
  split; [exact H0 |].
  apply (proj2 (mate_in_five_plus Games.mated_one_ply)).
  split; [run | left; exact H0].
Defined.

(** [cook_output_size] on the game [four_plies]. *)
Lemma cook_output_size_witness :
  cook Examples.four_plies = Ok ["defensiveMove"; "hangingPiece"; "short"]
  /\ (1 <= length ["defensiveMove"; "hangingPiece"; "short"] <= 22)%nat.
Proof.
  assert (Hc : cook Examples.four_plies
               = Ok ["defensiveMove"; "hangingPiece"; "short"]) by run.
  split; [exact Hc | exact (cook_output_size Examples.four_plies Hc)].
Defined.

(** [defender_on_a1_is_ignored] on the game [defender_on_a1]: the queen on
    a1 guards the knight, the rook shuts her diagonal, and neither detector
    sees it; one file to the right, with the queen on b1,
    [self_interference] answers true. *)
Lemma defender_on_a1_is_ignored_witness :
  self_interference Games.defender_on_a1 = Ok false
  /\ interference Games.defender_on_a1 = Ok false
  /\ cook Games.defender_on_a1 = Ok ["quietMove"; "short"]
  /\ self_interference Games.defender_on_b1 = Ok true
  /\ cook Games.defender_on_b1 = Ok ["quietMove"; "interference"; "short"].
Proof.
  destruct (defender_on_a1_is_ignored Games.defender_on_a1) as [Hself Hinter].
  split; [apply Hself; run |]. split; [apply Hinter; run |].
  repeat split; run.
Defined.

(** [interference_tag] on the game [defender_on_b1]. *)
Lemma interference_tag_witness :
  cook Games.defender_on_b1 = Ok ["quietMove"; "interference"; "short"]
  /\ (In "interference" ["quietMove"; "interference"; "short"] <->
      self_interference Games.defender_on_b1 = Ok true
      \/ (self_interference Games.defender_on_b1 = Ok false
          /\ interference Games.defender_on_b1 = Ok true)).
Proof.
  assert (Hc : cook Games.defender_on_b1
               = Ok ["quietMove"; "interference"; "short"]) by run.
  split; [exact Hc | exact (interference_tag Games.defender_on_b1 Hc)].
Defined.
